(** * Taxonomy Resolver: a shallow embedding of [taxonresolver/tree_fast.py]
    and [taxonresolver/tree.py], with the properties of its specification. *)

From Stdlib Require Import String Ascii List Bool Lia ZArith.
Import ListNotations.
Open Scope string_scope.

(** ** Python dicts

    A Python [dict] keyed by strings, in insertion order.  Assigning to a key
    that is already present replaces the value in place (the key keeps its
    position); a new key is appended at the end. *)
Module PyDict.

Definition t (V : Type) := list (string * V).

Fixpoint get {V} (k : string) (d : t V) : option V :=
  match d with
  | [] => None
  | (k', v) :: d' => if String.eqb k k' then Some v else get k d'
  end.

Fixpoint set {V} (k : string) (v : V) (d : t V) : t V :=
  match d with
  | [] => [(k, v)]
  | (k', v') :: d' =>
      if String.eqb k k' then (k', v) :: d' else (k', v') :: set k v d'
  end.

(** [k in d] *)
Definition mem {V} (k : string) (d : t V) : bool :=
  match get k d with Some _ => true | None => false end.

Definition keys {V} (d : t V) : list string := map fst d.

End PyDict.

Abbreviation dict := PyDict.t.

(** [x in l] for a Python list of strings. *)
Definition list_mem (x : string) (l : list string) : bool :=
  existsb (String.eqb x) l.

(** [list(set(l))]: the order of a Python set is unspecified; only the
    members and the absence of duplicates are observable. *)
Definition py_set (l : list string) : list string := nodup string_dec l.

(** Errors raised by the modelled Python code. *)
Inductive py_error :=
| IndexError
| KeyError (k : string)
| AttributeError
| LoopError
| RecursionError
| TypeError.

Inductive result (A : Type) :=
| Ok (a : A)
| Err (e : py_error).
Arguments Ok {A} a.
Arguments Err {A} e.

(** ** utils.py *)

Fixpoint replace_char (a b : ascii) (s : string) : string :=
  match s with
  | EmptyString => EmptyString
  | String c s' =>
      String (if Ascii.eqb c a then b else c) (replace_char a b s')
  end.

(** [text.replace(" ", "_").replace("-", "_")] *)
Definition label_to_id (text : string) : string :=
  replace_char "-"%char "_"%char (replace_char " "%char "_"%char text).

(** [text.replace('"', '\\"')]: every double quote gets a backslash before it. *)
Fixpoint escape_literal (s : string) : string :=
  match s with
  | EmptyString => EmptyString
  | String c s' =>
      if Ascii.eqb c "034"%char then String "092"%char (String c (escape_literal s'))
      else String c (escape_literal s')
  end.

(** The remaining helpers of utils.py, on Python [str] values whose code
    points are below 256 (a [string] read as Latin-1). *)
Module Utils.

(** [c.isspace()] for the code points below 256. *)
Definition is_space (c : ascii) : bool :=
  existsb (Nat.eqb (nat_of_ascii c)) [9; 10; 11; 12; 13; 28; 29; 30; 31; 32; 133; 160].

(** [s.lstrip()] *)
Fixpoint lstrip (s : string) : string :=
  match s with
  | EmptyString => EmptyString
  | String c s' => if is_space c then lstrip s' else s
  end.

(** [s.rstrip()] *)
Fixpoint rstrip (s : string) : string :=
  match s with
  | EmptyString => EmptyString
  | String c s' =>
      let r := rstrip s' in
      if is_space c && String.eqb r "" then EmptyString else String c r
  end.

(** [s.strip()] *)
Definition strip (s : string) : string := rstrip (lstrip s).

(** The characters of [s] after the first [n]: [s[n:]]. *)
Fixpoint str_drop (n : nat) (s : string) : string :=
  match n, s with
  | 0, _ => s
  | S _, EmptyString => EmptyString
  | S n', String _ s' => str_drop n' s'
  end.

(** [s.split(sep)] for a non-empty [sep]: cut at the leftmost occurrence of
    [sep] and go on after it.  Every step consumes a character, so a fuel of
    [length s + 1] is never exhausted. *)
Fixpoint split_go (fuel : nat) (sep s : string) : list string :=
  match fuel with
  | 0 => [s]
  | S f =>
      match s with
      | EmptyString => [EmptyString]
      | String c s' =>
          if String.prefix sep s then
            EmptyString :: split_go f sep (str_drop (String.length sep) s)
          else
            match split_go f sep s' with
            | [] => [String c EmptyString]
            | w :: ws => String c w :: ws
            end
      end
  end.

Definition py_split (sep s : string) : list string :=
  split_go (S (String.length s)) sep s.

(** [s.split()]: the maximal runs of non-whitespace characters.
    [ws_go s] is the run [s] starts with, and the runs after it. *)
Fixpoint ws_go (s : string) : string * list string :=
  match s with
  | EmptyString => (EmptyString, [])
  | String c s' =>
      let (w, ws) := ws_go s' in
      if is_space c then (EmptyString, if String.eqb w "" then ws else w :: ws)
      else (String c w, ws)
  end.

Definition split_ws (s : string) : list string :=
  let (w, ws) := ws_go s in if String.eqb w "" then ws else w :: ws.

(** The tab-bar separator of the dmp files. *)
Definition dmp_sep : string := String "009"%char "|".

(** [split_line(line)]: [[x.strip() for x in line.split("\t|")]] *)
Definition split_line (line : string) : list string :=
  map strip (py_split dmp_sep line).

(** [l[i]] for a Python int [i]; [None] is an [IndexError]. *)
Definition py_index (l : list string) (i : Z) : option string :=
  if (0 <=? i)%Z then nth_error l (Z.to_nat i)
  else if (- Z.of_nat (length l) <=? i)%Z then nth_error l (Z.to_nat (Z.of_nat (length l) + i))
  else None.

(** One line of the loop of [parse_tax_ids]; [sep = None] (or any falsy
    separator, such as the empty string) splits on whitespace.  [Ok None]:
    the line adds nothing. *)
Definition parse_line (sep : option string) (indx : Z) (line : string)
  : result (option string) :=
  if String.prefix "#" line then Ok None else
  let line := rstrip line in
  if String.eqb line "" then Ok None else
  let fields :=
    match sep with
    | Some s => if String.eqb s "" then split_ws line else py_split s line
    | None => split_ws line
    end in
  match py_index fields indx with
  | None => Err IndexError
  | Some tax_id => if String.eqb tax_id "" then Ok None else Ok (Some tax_id)
  end.

(** [parse_tax_ids(inputfile, sep, indx)] on the lines [for line in infile]
    yields (each with its line break, if any). *)
Fixpoint parse_tax_ids (lines : list string) (sep : option string) (indx : Z)
  : result (list string) :=
  match lines with
  | [] => Ok []
  | line :: rest =>
      match parse_line sep indx line with
      | Err e => Err e
      | Ok o =>
          match parse_tax_ids rest sep indx with
          | Err e => Err e
          | Ok ids => Ok (match o with Some x => x :: ids | None => ids end)
          end
      end
  end.

End Utils.

(** ** tree_fast.py: the dict-based tree *)
Module Fast.

(** [dict_node = {"tax_id": ..., "parent_tax_id": ..., "rank": ...}] *)
Record node := mk_node {
  tax_id : string;
  parent_tax_id : string;
  rank : string
}.

(** [tree_dict = {"nodes": {...}, "children": {...}}] *)
Record tree := mk_tree {
  nodes : dict node;
  children : dict (list string)
}.

Definition empty_tree : tree := mk_tree [] [].

(** [tree_reparenting]: append every node to its parent's children list.
    [children[p].append(x)] mutates the list stored under [p]. *)
Definition reparent_step (ch : dict (list string)) (kv : string * node)
  : dict (list string) :=
  let v := snd kv in
  match PyDict.get (parent_tax_id v) ch with
  | None => PyDict.set (parent_tax_id v) [tax_id v] ch
  | Some l => PyDict.set (parent_tax_id v) (l ++ [tax_id v])%list ch
  end.

Definition tree_reparenting (t : tree) : tree :=
  mk_tree (nodes t) (fold_left reparent_step (nodes t) (children t)).

(** One line of [nodes.dmp], already split by [split_line] into its fields;
    [fields[i]] raises [IndexError] on a short line. *)
Definition read_node (fields : list string) : result node :=
  match nth_error fields 0, nth_error fields 1, nth_error fields 2 with
  | Some a, Some b, Some c => Ok (mk_node a b (label_to_id c))
  | _, _, _ => Err IndexError
  end.

(** The loop of [build_tree]: [tree_dict["nodes"][fields[0]] = dict_node]. *)
Fixpoint read_nodes (lines : list (list string)) (acc : dict node)
  : result (dict node) :=
  match lines with
  | [] => Ok acc
  | fields :: rest =>
      match read_node fields with
      | Err e => Err e
      | Ok n => read_nodes rest (PyDict.set (tax_id n) n acc)
      end
  end.

Definition build_tree (lines : list (list string)) : result tree :=
  match read_nodes lines [] with
  | Err e => Err e
  | Ok ns => Ok (tree_reparenting (mk_tree ns []))
  end.

(** The [for taxid in taxids] loop of [get_leaves]; [rec] is the recursive
    call [get_leaves(tree["children"][taxid], tree)], which is skipped when
    the lookup raises [KeyError] (the taxid is a leaf). *)
Fixpoint leaves_loop (rec : list string -> list string -> option (list string))
    (ch : dict (list string)) (ts : list string) (acc : list string)
  : option (list string) :=
  match ts with
  | [] => Some acc
  | x :: ts' =>
      match PyDict.get x ch with
      | None => leaves_loop rec ch ts' acc
      | Some l =>
          match rec l acc with
          | None => None
          | Some acc' => leaves_loop rec ch ts' acc'
          end
      end
  end.

(** [get_leaves] of [search_taxids]: a closure that extends the shared list
    [taxids_found] with [taxids], then recurses into the children of each.
    The fuel is Python's recursion limit: running out of it is a
    [RecursionError]. *)
Fixpoint get_leaves (fuel : nat) (ch : dict (list string))
    (taxids : list string) (found : list string) : option (list string) :=
  match fuel with
  | 0 => None
  | S f => leaves_loop (get_leaves f ch) ch taxids (found ++ taxids)%list
  end.

(** The loop over [taxids_search] of [search_taxids]. *)
Fixpoint search_loop (fuel : nat) (ch : dict (list string))
    (ids : list string) (found : list string) : option (list string) :=
  match ids with
  | [] => Some found
  | tax_id :: ids' =>
      match PyDict.get tax_id ch with
      | None => search_loop fuel ch ids' found
      | Some l =>
          match get_leaves fuel ch l found with
          | None => None
          | Some found' => search_loop fuel ch ids' found'
          end
      end
  end.

(** [search_taxids(tree, searchids, filterids)]; [filterids = None] is the
    empty list.  An empty filter list is falsy and filters nothing. *)
Definition search_taxids (fuel : nat) (t : tree) (searchids filterids : list string)
  : option (list string) :=
  match search_loop fuel (children t) searchids [] with
  | None => None
  | Some found =>
      let found :=
        match filterids with
        | [] => found
        | _ => filter (fun x => list_mem x filterids) found
        end in
      Some (py_set found)
  end.

(** [validate_taxids(tree, validateids, filterids)] *)
Definition validate_taxids (t : tree) (validateids filterids : list string) : bool :=
  let taxids_valid :=
    map (fun x => list_mem x filterids || PyDict.mem x (nodes t)) validateids in
  if existsb negb taxids_valid then false else true.

(** [validate_by_taxid(tree, tax_id)] *)
Definition validate_by_taxid (t : tree) (x : string) : bool :=
  PyDict.mem x (nodes t).

(** [filter_tree(tree, filterids)] of tree_fast.py *)
Definition keep_node (ns acc : dict node) (x : string) : dict node :=
  match PyDict.get x ns with
  | Some n => PyDict.set x n acc
  | None => acc
  end.

Definition filter_tree (t : tree) (filterids : list string) : tree :=
  let tax_ids := filter (validate_by_taxid t) filterids in
  let ns := fold_left (keep_node (nodes t)) tax_ids [] in
  tree_reparenting (mk_tree ns []).

(** What [TaxonResolverFast.search] hands back to its caller. *)
Inductive outcome :=
| Returned (ids : list string)      (* the list of TaxIDs *)
| Warned (msg : string)             (* logging.warning(msg); returns None *)
| Exited (msg : string)             (* print_and_exit(msg) *)
| Raised (e : py_error).

Definition search_message : string :=
  "Some of the provided TaxIDs are not valid or not found in the built Tree.".

(** [sys.getrecursionlimit()] *)
Definition recursion_limit : nat := 1000.

(** [TaxonResolverFast.search(taxidsearch, taxidfilter)]; [logging] tells
    whether the resolver was given a logger. *)
Definition search (logging : bool) (t : tree) (taxidsearch taxidfilter : list string)
  : outcome :=
  if validate_taxids t taxidsearch taxidfilter then
    match search_taxids recursion_limit t taxidsearch taxidfilter with
    | Some l => Returned l
    | None => Raised RecursionError
    end
  else if logging then Warned search_message else Exited search_message.

(** ** Relations used to state the properties of the fast variant *)

(** [children[p]], or no children when [p] is not a key. *)
Definition lookup_list (ch : dict (list string)) (p : string) : list string :=
  match PyDict.get p ch with Some l => l | None => [] end.

(** [reach ch x y]: [y] is [x] or one of its transitive children in [ch]. *)
Inductive reach (ch : dict (list string)) : string -> string -> Prop :=
| reach_refl x : reach ch x x
| reach_step x c y : In c (lookup_list ch x) -> reach ch c y -> reach ch x y.

(** The parent links of the node table: node [c] declares [p] as parent. *)
Definition is_child (t : tree) (p c : string) : Prop :=
  exists k n, In (k, n) (nodes t) /\ parent_tax_id n = p /\ tax_id n = c.

(** [descendant t x y]: [y] is reached from [x] by one or more parent links
    (a strict descendant, unless [x] lies on a cycle of links). *)
Inductive descendant (t : tree) : string -> string -> Prop :=
| desc_child p c : is_child t p c -> descendant t p c
| desc_trans p c y : is_child t p c -> descendant t c y -> descendant t p y.

(** The node of the last line of [lines] that declares the id [k]. *)
Fixpoint last_decl (k : string) (lines : list (list string)) : option node :=
  match lines with
  | [] => None
  | fields :: rest =>
      match last_decl k rest with
      | Some n => Some n
      | None =>
          match read_node fields with
          | Ok n => if String.eqb (tax_id n) k then Some n else None
          | Err _ => None
          end
      end
  end.

End Fast.

(** ** tree.py: the anytree-based tree

    [tree_reparenting] sets [node.parent = tree_dict[parent_id]] for every
    node whose [parentTaxId] is another key of the dict, and returns the
    node [tree_dict[root_key]].  The node objects are modelled by the dict
    of their attributes, keyed by [node.name]; the [parent] attribute is
    [parent_of].  The [taxonName] attribute plays no part here and is left
    out. *)
Module Anytree.

Record anode := mk_anode {
  arank : string;
  parentTaxId : string
}.

Record atree := mk_atree {
  an_nodes : dict anode;
  root_key : string
}.

(** [node.parent] after [tree_reparenting]. *)
Definition parent_of (d : dict anode) (x : string) : option string :=
  match PyDict.get x d with
  | Some n =>
      if PyDict.mem (parentTaxId n) d && negb (String.eqb (parentTaxId n) x)
      then Some (parentTaxId n) else None
  | None => None
  end.

(** The chain [x, x.parent, x.parent.parent, ...] up to the top node, as
    [getRONode] walks it recursively: [None] when it does not end within
    [fuel] steps. *)
Fixpoint up (fuel : nat) (d : dict anode) (x : string) : option (list string) :=
  match fuel with
  | 0 => None
  | S f =>
      match parent_of d x with
      | None => Some [x]
      | Some p =>
          match up f d p with
          | None => None
          | Some l => Some (x :: l)
          end
      end
  end.

Definition chain_ends (fuel : nat) (d : dict anode) (x : string) : bool :=
  match up fuel d x with Some _ => true | None => false end.

(** [tree_reparenting(tree_dict, root_key)].  A cycle of parent links makes
    anytree raise [LoopError]; a chain longer than the recursion limit makes
    [getRONode] raise [RecursionError]; both abort the build, as does a
    missing [tree_dict[root_key]]. *)
Definition tree_reparenting (d : dict anode) (rk : string) : result atree :=
  if forallb (fun kv => chain_ends (S (length d)) d (fst kv)) d then
    if forallb (fun kv => chain_ends Fast.recursion_limit d (fst kv)) d then
      if PyDict.mem rk d then Ok (mk_atree d rk) else Err (KeyError rk)
    else Err RecursionError
  else Err LoopError.

(** The chain of [x] in the tree [t]. *)
Definition chain (t : atree) (x : string) : list string :=
  match up Fast.recursion_limit (an_nodes t) x with Some l => l | None => [] end.

(** [x] is a node of the subtree iterated from the returned node
    [tree_dict[root_key]] ([findall], [PreOrderIter]). *)
Definition in_tree (t : atree) (x : string) : bool :=
  PyDict.mem x (an_nodes t) && list_mem (root_key t) (chain t x).

(** [find(tree, filter_=lambda n: n.name == x)] *)
Definition find (t : atree) (x : string) : option string :=
  if in_tree t x then Some x else None.

(** [node.path]: the nodes from the top of the tree down to [node]. *)
Definition path (t : atree) (x : string) : list string := rev (chain t x).

(** [node.leaves]: the nodes of the subtree of [x] that have no children.
    (anytree lists them in pre-order; only the members are used.) *)
Definition leaves (t : atree) (x : string) : list string :=
  filter (fun z => in_tree t z && list_mem x (chain t z) &&
                   negb (existsb (fun kv => match parent_of (an_nodes t) (fst kv) with
                                            | Some p => String.eqb p z
                                            | None => false end) (an_nodes t)))
         (PyDict.keys (an_nodes t)).

Definition rank_of (t : atree) (x : string) : option string :=
  option_map arank (PyDict.get x (an_nodes t)).

(** [[node.name for tax_id in taxids_search
      for node in find(tree, ...).leaves if node.rank == search_rank]];
    [find] returning [None] makes [None.leaves] raise [AttributeError]. *)
Fixpoint leaves_of_rank (t : atree) (search_rank : string) (ids : list string)
  : result (list string) :=
  match ids with
  | [] => Ok []
  | x :: ids' =>
      match find t x with
      | None => Err AttributeError
      | Some n =>
          match leaves_of_rank t search_rank ids' with
          | Err e => Err e
          | Ok rest =>
              Ok (filter (fun z => match rank_of t z with
                                   | Some r => String.eqb r search_rank
                                   | None => false end) (leaves t n) ++ rest)%list
          end
      end
  end.

(** [search_tree(tree, taxidfile, filterfile, search_rank)] *)
Definition search_tree (t : atree) (taxids_search taxids_filter : list string)
    (search_rank : string) : result (list string) :=
  let taxids_found := filter (fun x => list_mem x taxids_filter) taxids_search in
  match leaves_of_rank t search_rank taxids_search with
  | Err e => Err e
  | Ok l => Ok (py_set (taxids_found ++ l)%list)
  end.

(** [validate_tree(tree, taxidfile, inputfile)] *)
Definition validate_tree (t : atree) (taxids_search taxids_filter : list string) : bool :=
  let names := filter (in_tree t) (PyDict.keys (an_nodes t)) in
  let taxids_valid :=
    map (fun x => list_mem x taxids_filter || list_mem x names) taxids_search in
  if existsb negb taxids_valid then false else true.

(** [[node.name for tax_id in tax_ids for node in find(tree, ...).path]] *)
Fixpoint path_names (t : atree) (ids : list string) : result (list string) :=
  match ids with
  | [] => Ok []
  | x :: ids' =>
      match find t x with
      | None => Err AttributeError
      | Some n =>
          match path_names t ids' with
          | Err e => Err e
          | Ok rest => Ok (path t n ++ rest)%list
          end
      end
  end.

(** [get_anytree_taxon_nodes(tree, filter_=lambda n: n.name in tax_id_parents)]:
    a fresh node for every node of the tree that passes the filter. *)
Definition dict_select (c : string -> bool) (d : dict anode) : dict anode :=
  fold_left (fun acc kv =>
               if c (fst kv) then PyDict.set (fst kv) (snd kv) acc else acc) d [].

Definition taxon_nodes (t : atree) (keep : list string) : dict anode :=
  dict_select (fun k => in_tree t k && list_mem k keep) (an_nodes t).

(** [filter_tree(tree, filterfile, root_key)] *)
Definition filter_tree (t : atree) (tax_ids : list string) : result atree :=
  match path_names t tax_ids with
  | Err e => Err e
  | Ok tax_id_parents =>
      tree_reparenting (taxon_nodes t tax_id_parents) (root_key t)
  end.

(** [[d']] holds a part of the nodes of [d], unchanged. *)
Definition sub_dict (d' d : dict anode) : Prop :=
  forall z, PyDict.mem z d' = true -> PyDict.mem z d = true.

(** [TaxonResolver().search_rank] *)
Definition default_search_rank : string := "species".

End Anytree.

(** ** [find_by_taxid] of tree_fast.py *)
Module FastFind.
Import Fast.

(** [find_by_taxid(tree, tax_id)]: [tree["nodes"][tax_id]] *)
Definition find_by_taxid (t : tree) (x : string) : result node :=
  match PyDict.get x (nodes t) with
  | Some n => Ok n
  | None => Err (KeyError x)
  end.

(** What [TaxonResolverFast.find_by_taxid] hands back to its caller. *)
Inductive find_outcome :=
| Found (n : node)
| FWarned (msg : string)
| FExited (msg : string)
| FRaised (e : py_error).

Definition find_message : string :=
  "The provided TaxIDs is not valid or not found in the built Tree.".

(** [TaxonResolverFast.find_by_taxid(taxid)] *)
Definition resolver_find_by_taxid (logging : bool) (t : tree) (x : string) : find_outcome :=
  if validate_by_taxid t x then
    match find_by_taxid t x with
    | Ok n => Found n
    | Err e => FRaised e
    end
  else if logging then FWarned find_message else FExited find_message.

End FastFind.

(** ** The [_fast] functions of tree.py

    [build_tree_fast] and [tree_reparenting_fast] of tree.py compute what
    [Fast.build_tree] and [Fast.tree_reparenting] compute, under the key
    ["parents"] instead of ["children"]: the field [children] below holds
    [tree["parents"]]. *)
Module TreeFast.
Import Fast.

Definition build_tree_fast (lines : list (list string)) : result tree :=
  Fast.build_tree lines.

(** [[t for t in taxids if tree["nodes"][t]["rank"] == search_rank]] *)
Fixpoint ranked (ns : dict node) (search_rank : string) (taxids : list string)
  : result (list string) :=
  match taxids with
  | [] => Ok []
  | x :: rest =>
      match PyDict.get x ns with
      | None => Err (KeyError x)
      | Some n =>
          match ranked ns search_rank rest with
          | Err e => Err e
          | Ok r => Ok (if String.eqb (rank n) search_rank then x :: r else r)
          end
      end
  end.

(** The [for taxid in taxids] loop of [get_leaves] of [search_tree_fast].  The
    shared list [taxids_found] is threaded through, together with the
    exception being raised, if any: a [KeyError] raised by the recursive call
    is caught like the one of [tree["parents"][taxid]], and what the call
    added to [taxids_found] before raising stays there. *)
Fixpoint rleaves_loop
    (rec : list string -> list string -> list string * option py_error)
    (ch : dict (list string)) (ts : list string) (acc : list string)
  : list string * option py_error :=
  match ts with
  | [] => (acc, None)
  | x :: ts' =>
      match PyDict.get x ch with
      | None => rleaves_loop rec ch ts' acc
      | Some l =>
          match rec l acc with
          | (acc', None) => rleaves_loop rec ch ts' acc'
          | (acc', Some (KeyError _)) => rleaves_loop rec ch ts' acc'
          | (acc', Some e) => (acc', Some e)
          end
      end
  end.

(** [get_leaves(taxids, tree)] of [search_tree_fast]; the fuel is the
    recursion limit. *)
Fixpoint rget_leaves (fuel : nat) (ns : dict node) (search_rank : string)
    (ch : dict (list string)) (taxids : list string) (acc : list string)
  : list string * option py_error :=
  match fuel with
  | 0 => (acc, Some RecursionError)
  | S f =>
      match ranked ns search_rank taxids with
      | Err e => (acc, Some e)
      | Ok r => rleaves_loop (rget_leaves f ns search_rank ch) ch taxids (acc ++ r)%list
      end
  end.

(** The loop over [taxids_search]: [get_leaves(tree["parents"][tax_id], tree)]
    is not guarded, so a searched ID with no children raises [KeyError]. *)
Fixpoint rsearch_loop (fuel : nat) (ns : dict node) (search_rank : string)
    (ch : dict (list string)) (ids : list string) (acc : list string)
  : list string * option py_error :=
  match ids with
  | [] => (acc, None)
  | x :: ids' =>
      match PyDict.get x ch with
      | None => (acc, Some (KeyError x))
      | Some l =>
          match rget_leaves fuel ns search_rank ch l acc with
          | (acc', None) => rsearch_loop fuel ns search_rank ch ids' acc'
          | (acc', Some e) => (acc', Some e)
          end
      end
  end.

(** [search_tree_fast(tree, taxidfile, filterfile, search_rank)], on the
    TaxID lists the two files hold (no filter file: the empty list). *)
Definition search_tree_fast (t : tree) (taxids_search taxids_filter : list string)
    (search_rank : string) : result (list string) :=
  let taxids_found := filter (fun x => list_mem x taxids_filter) taxids_search in
  match rsearch_loop recursion_limit (nodes t) search_rank (children t)
          taxids_search taxids_found with
  | (acc, None) => Ok (py_set acc)
  | (_, Some e) => Err e
  end.

(** [validate_tree_fast(tree, taxidfile, inputfile)]: the same loop as
    [validate_taxids] of tree_fast.py. *)
Definition validate_tree_fast (t : tree) (taxids_search taxids_filter : list string) : bool :=
  Fast.validate_taxids t taxids_search taxids_filter.

End TreeFast.

(** ** The class [TaxonResolver] of tree.py *)
Module Resolver.

(** A Python value passed as an argument: a string, or another object. *)
Inductive pyval :=
| PyStr (s : string)
| PyObj.

(** The attribute [self.logging]: falsy ([None], the default), a callable
    (such as [logging.warning]), or a truthy object that cannot be called
    (such as the [logging] module itself). *)
Inductive logger :=
| NoLogger
| LogCallable
| LogNotCallable.

(** [if self.logging:] *)
Definition truthy (l : logger) : bool :=
  match l with
  | NoLogger => false
  | _ => true
  end.

(** The attribute [self.tree]: [None], an anytree tree or a fast dict. *)
Inductive rtree :=
| NoTree
| AnyTree (t : Anytree.atree)
| FastTree (t : Fast.tree).

Record resolver := mk_resolver {
  mode : pyval;
  logging : logger;
  tree : rtree;
  root_key : string;
  search_rank : string
}.

(** [TaxonResolver(mode, logging)] *)
Definition TaxonResolver (mode : pyval) (logging : logger) : resolver :=
  mk_resolver mode logging NoTree "1" Anytree.default_search_rank.

(** [self.mode == m] *)
Definition mode_is (r : resolver) (m : string) : bool :=
  match mode r with
  | PyStr s => String.eqb s m
  | PyObj => false
  end.

(** [self.mode in self._valid_modes] *)
Definition valid_mode (r : resolver) : bool :=
  mode_is r "anytree" || mode_is r "fast".

(** What [load] does: it returns [None] with the resolver updated, and
    [logged] tells whether the message went to [self.logging]; or it
    raises. *)
Inductive load_outcome :=
| LDone (r : resolver) (logged : bool)
| LRaised (e : py_error).

(** [load(inputfile, inputformat)]: [format_ok] is
    [inputformat.lower() in self._valid_formats], and [loaded] the tree
    [load_tree] reads from the file.  In the else branch,
    [self.logging(f"...")] calls the logger: a logger that cannot be called
    raises [TypeError]. *)
Definition load (r : resolver) (format_ok : bool) (loaded : rtree) : load_outcome :=
  if format_ok && valid_mode r then
    LDone (mk_resolver (mode r) (logging r) loaded (root_key r) (search_rank r)) false
  else
    match logging r with
    | NoLogger => LDone r false
    | LogCallable => LDone r true
    | LogNotCallable => LRaised TypeError
    end.

(** A TaxID file is given by the lines [for line in infile] yields; the
    filter file is optional ([None]: no file, [if filterfile:] is false). *)
Definition read_filter (ffile : option (list string)) (sep : option string) (indx : Z)
  : result (list string) :=
  match ffile with
  | None => Ok []
  | Some lines => Utils.parse_tax_ids lines sep indx
  end.

(** [taxids_search = parse_tax_ids(taxidfile, sep, indx)], then the filter
    file. *)
Definition read_files (sfile : list string) (ffile : option (list string))
    (sep : option string) (indx : Z) : result (list string * list string) :=
  match Utils.parse_tax_ids sfile sep indx with
  | Err e => Err e
  | Ok taxids_search =>
      match read_filter ffile sep indx with
      | Err e => Err e
      | Ok taxids_filter => Ok (taxids_search, taxids_filter)
      end
  end.

(** [validate_tree(tree, taxidfile, inputfile, sep, indx)] *)
Definition validate_tree_files (t : Anytree.atree) (sfile : list string)
    (ffile : option (list string)) (sep : option string) (indx : Z) : result bool :=
  match read_files sfile ffile sep indx with
  | Err e => Err e
  | Ok (taxids_search, taxids_filter) =>
      Ok (Anytree.validate_tree t taxids_search taxids_filter)
  end.

(** [search_tree(tree, taxidfile, filterfile, search_rank, sep, indx)] *)
Definition search_tree_files (t : Anytree.atree) (sfile : list string)
    (ffile : option (list string)) (rk : string) (sep : option string) (indx : Z)
  : result (list string) :=
  match read_files sfile ffile sep indx with
  | Err e => Err e
  | Ok (taxids_search, taxids_filter) =>
      Anytree.search_tree t taxids_search taxids_filter rk
  end.

(** [validate_tree_fast(tree, taxidfile, inputfile, sep, indx)] *)
Definition validate_tree_fast_files (t : Fast.tree) (sfile : list string)
    (ffile : option (list string)) (sep : option string) (indx : Z) : result bool :=
  match read_files sfile ffile sep indx with
  | Err e => Err e
  | Ok (taxids_search, taxids_filter) =>
      Ok (TreeFast.validate_tree_fast t taxids_search taxids_filter)
  end.

(** [search_tree_fast(tree, taxidfile, filterfile, search_rank, sep, indx)] *)
Definition search_tree_fast_files (t : Fast.tree) (sfile : list string)
    (ffile : option (list string)) (rk : string) (sep : option string) (indx : Z)
  : result (list string) :=
  match read_files sfile ffile sep indx with
  | Err e => Err e
  | Ok (taxids_search, taxids_filter) =>
      TreeFast.search_tree_fast t taxids_search taxids_filter rk
  end.

(** The defaults [sep=" "] and [indx=0] of these functions. *)
Definition default_sep : option string := Some " ".
Definition default_indx : Z := 0.

(** What [search] and [validate] hand back; [RCrashed] is an exception
    raised on a [self.tree] of the wrong kind (or [None]), not modelled
    further. *)
Inductive r_outcome :=
| RReturned (ids : list string)
| RWarned (msg : string)
| RExited (msg : string)
| RRaised (e : py_error)
| RNone
| RCrashed.

Inductive v_outcome :=
| VReturned (b : bool)
| VRaised (e : py_error)
| VNone
| VCrashed.

(** [search(taxidsearch, taxidfilter, **kwargs)], the keyword arguments
    being [sep] and [indx]: they reach [search_tree] only, and the
    validation reads the files with the defaults.  The refusal goes to
    the module-level [logging.warning] whenever [self.logging] is truthy. *)
Definition search (r : resolver) (sfile : list string) (ffile : option (list string))
    (sep : option string) (indx : Z) : r_outcome :=
  let refuse := if truthy (logging r) then RWarned Fast.search_message
                else RExited Fast.search_message in
  if mode_is r "anytree" then
    match tree r with
    | AnyTree t =>
        match validate_tree_files t sfile ffile default_sep default_indx with
        | Err e => RRaised e
        | Ok true =>
            match search_tree_files t sfile ffile (search_rank r) sep indx with
            | Ok l => RReturned l
            | Err e => RRaised e
            end
        | Ok false => refuse
        end
    | _ => RCrashed
    end
  else if mode_is r "fast" then
    match tree r with
    | FastTree t =>
        match validate_tree_fast_files t sfile ffile default_sep default_indx with
        | Err e => RRaised e
        | Ok true =>
            match search_tree_fast_files t sfile ffile (search_rank r) sep indx with
            | Ok l => RReturned l
            | Err e => RRaised e
            end
        | Ok false => refuse
        end
    | _ => RCrashed
    end
  else RNone.

(** [validate(taxidsearch, taxidfilter, **kwargs)]: here the keyword
    arguments reach the validation. *)
Definition validate (r : resolver) (sfile : list string) (ffile : option (list string))
    (sep : option string) (indx : Z) : v_outcome :=
  if mode_is r "anytree" then
    match tree r with
    | AnyTree t =>
        match validate_tree_files t sfile ffile sep indx with
        | Ok b => VReturned b
        | Err e => VRaised e
        end
    | _ => VCrashed
    end
  else if mode_is r "fast" then
    match tree r with
    | FastTree t =>
        match validate_tree_fast_files t sfile ffile sep indx with
        | Ok b => VReturned b
        | Err e => VRaised e
        end
    | _ => VCrashed
    end
  else VNone.

(** cli.py creates its resolver with [TaxonResolver(logging)]: the logging
    module returned by [load_logging] is the first positional argument,
    [mode], and [self.logging] keeps its default [None]. *)
Definition cli_resolver : resolver := TaxonResolver PyObj NoLogger.

End Resolver.

(** A small dump: 1 is the root (its own parent), 3 has the children 4 and 5. *)
Module Mock.
Import Fast.

Definition mock_lines : list (list string) :=
  [["1"; "1"; "no rank"]; ["2"; "1"; "superkingdom"]; ["3"; "2"; "genus"];
   ["4"; "3"; "species"]; ["5"; "3"; "species"]; ["6"; "1"; "species"]].

Definition mock : tree :=
  match build_tree mock_lines with Ok t => t | Err _ => empty_tree end.

(** The same id declared twice, with different parents and ranks. *)
Definition dup_lines : list (list string) :=
  [["1"; "1"; "no rank"]; ["2"; "1"; "genus"]; ["3"; "1"; "genus"];
   ["4"; "2"; "species"]; ["4"; "3"; "subspecies"]].

(** The node table of [mock_lines] as anytree nodes. *)
Definition amock_nodes : dict Anytree.anode :=
  [("1", Anytree.mk_anode "no rank" "1"); ("2", Anytree.mk_anode "superkingdom" "1");
   ("3", Anytree.mk_anode "genus" "2"); ("4", Anytree.mk_anode "species" "3");
   ("5", Anytree.mk_anode "species" "3"); ("6", Anytree.mk_anode "species" "1")].

Definition amock : Anytree.atree :=
  match Anytree.tree_reparenting amock_nodes "1" with
  | Ok t => t
  | Err _ => Anytree.mk_atree [] "1"
  end.

(** [filter_tree(amock, ["3"])] *)
Definition amock_keep3 : Anytree.atree :=
  match Anytree.filter_tree amock ["3"] with Ok t => t | Err _ => amock end.

End Mock.

(** ** Proofs about the fast variant *)
Module FastProofs.
Import Fast.

(** *** Dict lemmas *)

Lemma get_set_eq {V} (k : string) (v : V) d :
  PyDict.get k (PyDict.set k v d) = Some v.
Proof.
  induction d as [|[k' v'] d IH]; simpl.
  - now rewrite String.eqb_refl.
  - destruct (String.eqb k k') eqn:E; simpl.
    + now rewrite E.
    + now rewrite E.
Qed.

Lemma get_set_neq {V} (k k' : string) (v : V) d :
  k <> k' -> PyDict.get k (PyDict.set k' v d) = PyDict.get k d.
Proof.
  intros Hne. induction d as [|[k'' v''] d IH]; simpl.
  - apply String.eqb_neq in Hne. now rewrite Hne.
  - destruct (String.eqb k' k'') eqn:E; simpl.
    + apply String.eqb_eq in E; subst k''.
      apply String.eqb_neq in Hne. now rewrite Hne.
    + now rewrite IH.
Qed.

Lemma get_In {V} (k : string) (v : V) d :
  PyDict.get k d = Some v -> In (k, v) d.
Proof.
  induction d as [|[k' v'] d IH]; simpl; [discriminate|].
  destruct (String.eqb k k') eqn:E.
  - intros [= <-]. apply String.eqb_eq in E; subst. now left.
  - intros H. right. now apply IH.
Qed.

Lemma list_mem_In x l : list_mem x l = true <-> In x l.
Proof.
  unfold list_mem. rewrite existsb_exists. split.
  - intros (y & Hy & E). apply String.eqb_eq in E. now subst.
  - intros H. exists x. split; [exact H | apply String.eqb_refl].
Qed.

(** *** Reachability along the children lists *)

Section Reach.
Variable ch : dict (list string).

Lemma leaves_loop_spec rec :
  (forall ts acc r, rec ts acc = Some r ->
     forall y, In y r <-> In y acc \/ exists t, In t ts /\ reach ch t y) ->
  forall ts acc r, leaves_loop rec ch ts acc = Some r ->
  forall y, In y r <->
    In y acc \/ exists t c, In t ts /\ In c (lookup_list ch t) /\ reach ch c y.
Proof.
  intros Hrec ts. induction ts as [|x ts IH]; intros acc r Hr y; simpl in Hr.
  - injection Hr as <-. split; [now left|].
    intros [H|(t & c & [] & _)]. exact H.
  - destruct (PyDict.get x ch) as [l|] eqn:Hx.
    + destruct (rec l acc) as [acc'|] eqn:Hacc; [|discriminate].
      rewrite (IH acc' r Hr y), (Hrec l acc acc' Hacc y).
      unfold lookup_list at 2. split.
      * intros [[H|(c & Hc & Hcy)]|(t & c & Ht & Hc & Hcy)].
        -- now left.
        -- right. exists x, c. rewrite Hx. simpl; auto.
        -- right. exists t, c. simpl; auto.
      * intros [H|(t & c & [<-|Ht] & Hc & Hcy)].
        -- now do 2 left.
        -- left. right. exists c. rewrite Hx in Hc. auto.
        -- right. exists t, c. auto.
    + rewrite (IH acc r Hr y). split.
      * intros [H|(t & c & Ht & Hc & Hcy)]; [now left|].
        right. exists t, c. simpl; auto.
      * intros [H|(t & c & [<-|Ht] & Hc & Hcy)]; [now left| |].
        -- unfold lookup_list in Hc. rewrite Hx in Hc. destruct Hc.
        -- right. exists t, c. auto.
Qed.

Lemma get_leaves_spec fuel : forall ts acc r,
  get_leaves fuel ch ts acc = Some r ->
  forall y, In y r <-> In y acc \/ exists t, In t ts /\ reach ch t y.
Proof.
  induction fuel as [|f IH]; intros ts acc r Hr y; simpl in Hr; [discriminate|].
  rewrite (leaves_loop_spec _ IH ts _ r Hr y), in_app_iff. split.
  - intros [[H|H]|(t & c & Ht & Hc & Hcy)].
    + now left.
    + right. exists y. split; [exact H | constructor].
    + right. exists t. split; [exact Ht|]. econstructor; eauto.
  - intros [H|(t & Ht & Hty)]; [now do 2 left|].
    inversion Hty as [x Hx|x c y' Hc Hcy]; subst.
    + left. now right.
    + right. exists t, c. auto.
Qed.

(** A node listed among its own children makes [get_leaves] recurse until
    the recursion limit. *)
Lemma leaves_loop_self rec x :
  In x (lookup_list ch x) ->
  (forall acc, rec (lookup_list ch x) acc = None) ->
  forall ts acc, In x ts -> leaves_loop rec ch ts acc = None.
Proof.
  intros Hself Hrec ts. induction ts as [|z ts IH]; intros acc Hin; [destruct Hin|].
  simpl. destruct Hin as [->|Hin].
  - unfold lookup_list in Hself, Hrec. destruct (PyDict.get x ch) as [l|].
    + now rewrite Hrec.
    + destruct Hself.
  - destruct (PyDict.get z ch) as [l|]; [|now apply IH].
    destruct (rec l acc); [now apply IH | reflexivity].
Qed.

Lemma get_leaves_self x fuel :
  In x (lookup_list ch x) ->
  forall ts acc, In x ts -> get_leaves fuel ch ts acc = None.
Proof.
  intros Hself. induction fuel as [|f IH]; intros ts acc Hin; [reflexivity|].
  simpl. apply (leaves_loop_self _ x Hself); auto.
Qed.

Lemma search_loop_spec fuel : forall ids found r,
  search_loop fuel ch ids found = Some r ->
  forall y, In y r <->
    In y found \/ exists s c, In s ids /\ In c (lookup_list ch s) /\ reach ch c y.
Proof.
  intros ids. induction ids as [|s ids IH]; intros found r Hr y; simpl in Hr.
  - injection Hr as <-. split; [now left|].
    intros [H|(t & c & [] & _)]. exact H.
  - destruct (PyDict.get s ch) as [l|] eqn:Hs.
    + destruct (get_leaves fuel ch l found) as [f'|] eqn:Hf; [|discriminate].
      rewrite (IH f' r Hr y), (get_leaves_spec fuel l found f' Hf y).
      split.
      * intros [[H|(c & Hc & Hcy)]|(t & c & Ht & Hc & Hcy)].
        -- now left.
        -- right. exists s, c. unfold lookup_list. rewrite Hs. simpl; auto.
        -- right. exists t, c. simpl; auto.
      * intros [H|(t & c & [<-|Ht] & Hc & Hcy)].
        -- now do 2 left.
        -- left. right. exists c. unfold lookup_list in Hc. rewrite Hs in Hc. auto.
        -- right. exists t, c. auto.
    + rewrite (IH found r Hr y). split.
      * intros [H|(t & c & Ht & Hc & Hcy)]; [now left|].
        right. exists t, c. simpl; auto.
      * intros [H|(t & c & [<-|Ht] & Hc & Hcy)]; [now left| |].
        -- unfold lookup_list in Hc. rewrite Hs in Hc. destruct Hc.
        -- right. exists t, c. auto.
Qed.

Lemma search_loop_self fuel s : forall ids found,
  In s ids -> In s (lookup_list ch s) -> search_loop fuel ch ids found = None.
Proof.
  intros ids. induction ids as [|z ids IH]; intros found Hin Hself; [destruct Hin|].
  simpl. destruct Hin as [->|Hin].
  - unfold lookup_list in Hself |- *. destruct (PyDict.get s ch) as [l|] eqn:Hs.
    + rewrite (get_leaves_self s fuel); [reflexivity | | exact Hself].
      unfold lookup_list. now rewrite Hs.
    + destruct Hself.
  - destruct (PyDict.get z ch) as [l|]; [|now apply IH].
    destruct (get_leaves fuel ch l found); [now apply IH | reflexivity].
Qed.

End Reach.

(** *** The children lists of a built tree follow the parent links *)

Lemma lookup_reparent_step ch kv p :
  lookup_list (reparent_step ch kv) p =
  if String.eqb p (parent_tax_id (snd kv))
  then (lookup_list ch p ++ [tax_id (snd kv)])%list else lookup_list ch p.
Proof.
  destruct kv as [k v]. unfold reparent_step, lookup_list; simpl.
  destruct (String.eqb p (parent_tax_id v)) eqn:E.
  - apply String.eqb_eq in E; subst p.
    destruct (PyDict.get (parent_tax_id v) ch); now rewrite get_set_eq.
  - apply String.eqb_neq in E.
    destruct (PyDict.get (parent_tax_id v) ch); now rewrite get_set_neq.
Qed.

Lemma lookup_reparent_fold L : forall ch p c,
  In c (lookup_list (fold_left reparent_step L ch) p) <->
  In c (lookup_list ch p) \/
  exists k n, In (k, n) L /\ parent_tax_id n = p /\ tax_id n = c.
Proof.
  induction L as [|[k n] L IH]; intros ch p c; simpl.
  - split; [now left|]. intros [H|(k & n & [] & _)]. exact H.
  - rewrite IH, lookup_reparent_step. simpl.
    destruct (String.eqb p (parent_tax_id n)) eqn:E.
    + apply String.eqb_eq in E. rewrite in_app_iff. simpl. split.
      * intros [[H|[H|[]]]|(k' & n' & H & H1 & H2)].
        -- now left.
        -- right. exists k, n. auto.
        -- right. exists k', n'. auto.
      * intros [H|(k' & n' & [Heq|H] & H1 & H2)].
        -- now do 2 left.
        -- injection Heq as -> ->. left. right. now left.
        -- right. exists k', n'. auto.
    + apply String.eqb_neq in E. split.
      * intros [H|(k' & n' & H & H1 & H2)]; [now left|].
        right. exists k', n'. auto.
      * intros [H|(k' & n' & [Heq|H] & H1 & H2)]; [now left| |].
        -- injection Heq as -> ->. congruence.
        -- right. exists k', n'. auto.
Qed.

Lemma build_children lines t :
  build_tree lines = Ok t ->
  forall p c, In c (lookup_list (children t) p) <-> is_child t p c.
Proof.
  unfold build_tree. destruct (read_nodes lines []) as [ns|e]; [|discriminate].
  intros [= <-] p c. unfold tree_reparenting, is_child; simpl.
  rewrite lookup_reparent_fold. unfold lookup_list at 1; simpl.
  split; [intros [[]|H]; exact H | intros H; now right].
Qed.

Lemma reach_descendant t :
  (forall p c, In c (lookup_list (children t) p) <-> is_child t p c) ->
  forall s y,
    (exists c, In c (lookup_list (children t) s) /\ reach (children t) c y) <->
    descendant t s y.
Proof.
  intros Hch s y. split.
  - intros (c & Hc & Hr). revert s Hc.
    induction Hr as [x|x c' y Hc' Hr IH]; intros s Hs.
    + apply desc_child. now apply Hch.
    + apply desc_trans with x; [now apply Hch|]. now apply IH.
  - induction 1 as [p c H|p c y H Hd IH].
    + exists c. split; [now apply Hch | constructor].
    + destruct IH as (c' & Hc' & Hr). exists c.
      split; [now apply Hch|]. econstructor; eauto.
Qed.

Lemma search_returned lg t S F r :
  search lg t S F = Returned r ->
  validate_taxids t S F = true /\ search_taxids recursion_limit t S F = Some r.
Proof.
  unfold search. destruct (validate_taxids t S F); [|destruct lg; discriminate].
  destruct (search_taxids recursion_limit t S F); [|discriminate].
  now intros [= <-].
Qed.

Lemma search_taxids_nofilter fuel t S r :
  search_taxids fuel t S [] = Some r ->
  NoDup r /\ forall y, In y r <->
    exists s c, In s S /\ In c (lookup_list (children t) s) /\
                reach (children t) c y.
Proof.
  unfold search_taxids.
  destruct (search_loop fuel (children t) S []) as [found|] eqn:Hl; [|discriminate].
  intros [= <-]. unfold py_set. split; [apply NoDup_nodup|].
  intros y. rewrite nodup_In, (search_loop_spec _ fuel S [] found Hl y).
  split; [intros [[]|H]; exact H | now right].
Qed.

Example mock_children :
  PyDict.get "3" (children Mock.mock) = Some ["4"; "5"].
Proof. reflexivity. Qed.

Example mock_search2 :
  search_taxids 100 Mock.mock ["2"] [] = Some ["3"; "4"; "5"].
Proof. reflexivity. Qed.

Example mock_search_root :
  search_taxids 100 Mock.mock ["1"] [] = None.
Proof. reflexivity. Qed.

(** *** Filtering and validation *)

Lemma search_taxids_members fuel t S F r :
  search_taxids fuel t S F = Some r ->
  exists found, search_loop fuel (children t) S [] = Some found /\
    NoDup r /\ forall y, In y r <-> (F = [] \/ In y F) /\ In y found.
Proof.
  unfold search_taxids.
  destruct (search_loop fuel (children t) S []) as [found|]; [|discriminate].
  intros [= <-]. exists found. split; [reflexivity|].
  unfold py_set. split; [apply NoDup_nodup|]. intros y. rewrite nodup_In.
  destruct F as [|f F].
  - split; [intros H; split; [now left | exact H] | now intros [_ H]].
  - rewrite filter_In, list_mem_In. split.
    + intros [H1 H2]. split; [now right | exact H1].
    + intros [[H|H] H2]; [discriminate | now split].
Qed.

Lemma validate_taxids_spec t S F :
  validate_taxids t S F = true <->
  Forall (fun x => In x F \/ PyDict.mem x (nodes t) = true) S.
Proof.
  unfold validate_taxids.
  induction S as [|x S IH]; simpl.
  - split; [constructor | reflexivity].
  - rewrite Forall_cons_iff, <- IH, <- list_mem_In.
    destruct (list_mem x F), (PyDict.mem x (nodes t)); simpl;
      destruct (existsb negb _); intuition congruence.
Qed.

(** *** Building *)

Lemma read_nodes_last lines : forall acc ns,
  read_nodes lines acc = Ok ns ->
  forall k, PyDict.get k ns =
    match last_decl k lines with Some n => Some n | None => PyDict.get k acc end.
Proof.
  induction lines as [|fields rest IH]; intros acc ns H k; simpl in H |- *.
  - now injection H as <-.
  - destruct (read_node fields) as [n|e] eqn:Hn; [|discriminate].
    rewrite (IH _ _ H k). destruct (last_decl k rest); [reflexivity|].
    destruct (String.eqb (tax_id n) k) eqn:E.
    + apply String.eqb_eq in E. subst k. apply get_set_eq.
    + apply get_set_neq. intros ->. now rewrite String.eqb_refl in E.
Qed.

Lemma read_nodes_error lines : forall acc e,
  read_nodes lines acc = Err e -> e = IndexError.
Proof.
  induction lines as [|fields rest IH]; intros acc e H; simpl in H; [discriminate|].
  destruct (read_node fields) as [n|e'] eqn:Hn.
  - exact (IH _ _ H).
  - injection H as <-. unfold read_node in Hn.
    destruct (nth_error fields 0), (nth_error fields 1), (nth_error fields 2);
      congruence.
Qed.

(** *** [filter_tree] *)

Lemma get_keep_fold D L : forall acc k,
  PyDict.get k (fold_left (keep_node D) L acc) =
  if list_mem k L && PyDict.mem k D then PyDict.get k D else PyDict.get k acc.
Proof.
  induction L as [|x L IH]; intros acc k; simpl; [reflexivity|].
  rewrite IH. unfold keep_node, list_mem, PyDict.mem. simpl.
  destruct (String.eqb k x) eqn:E; simpl.
  - apply String.eqb_eq in E; subst x.
    destruct (PyDict.get k D) as [n|] eqn:G; simpl.
    + rewrite get_set_eq, andb_true_r. now destruct (existsb _ L).
    + now rewrite andb_false_r.
  - apply String.eqb_neq in E.
    destruct (PyDict.get x D) as [n|]; [|reflexivity].
    now rewrite get_set_neq.
Qed.

Lemma keep_fold_ext D D' L : forall acc,
  (forall x, In x L -> PyDict.get x D' = PyDict.get x D) ->
  fold_left (keep_node D') L acc = fold_left (keep_node D) L acc.
Proof.
  induction L as [|x L IH]; intros acc H; simpl; [reflexivity|].
  unfold keep_node at 2 4. rewrite (H x (or_introl eq_refl)).
  apply IH. intros y Hy. apply H. now right.
Qed.

Lemma list_mem_filter f k S : list_mem k (filter f S) = list_mem k S && f k.
Proof.
  induction S as [|a S IH]; simpl; [reflexivity|].
  unfold list_mem in *. destruct (f a) eqn:Fa; simpl; rewrite IH;
    destruct (String.eqb k a) eqn:E; simpl; try reflexivity;
    apply String.eqb_eq in E; subst; now rewrite Fa, ?andb_false_r.
Qed.

Lemma filter_tree_nodes t S k :
  PyDict.mem k (nodes (filter_tree t S)) = list_mem k S && PyDict.mem k (nodes t).
Proof.
  unfold filter_tree, tree_reparenting. cbn [nodes].
  unfold PyDict.mem at 1. rewrite get_keep_fold, list_mem_filter.
  unfold validate_by_taxid.
  destruct (list_mem k S); simpl; [|reflexivity].
  destruct (PyDict.mem k (nodes t)) eqn:M; simpl; [exact M | reflexivity].
Qed.

Lemma filter_tree_idem t S : filter_tree (filter_tree t S) S = filter_tree t S.
Proof.
  unfold filter_tree at 1 3. set (L := filter (validate_by_taxid t) S).
  set (ns := fold_left (keep_node (nodes t)) L []).
  assert (Hg : forall x, PyDict.get x ns =
                         if list_mem x L && PyDict.mem x (nodes t)
                         then PyDict.get x (nodes t) else None).
  { intros x. unfold ns. now rewrite get_keep_fold. }
  assert (HL : filter (validate_by_taxid (filter_tree t S)) S = L).
  { unfold L. apply filter_ext_in. intros x Hx.
    unfold validate_by_taxid at 1, filter_tree, tree_reparenting. cbn [nodes].
    fold L ns. unfold PyDict.mem at 1. rewrite Hg.
    unfold validate_by_taxid.
    destruct (PyDict.mem x (nodes t)) eqn:M.
    - rewrite andb_true_r.
      replace (list_mem x L) with true.
      + unfold PyDict.mem in M. now destruct (PyDict.get x (nodes t)).
      + symmetry. apply list_mem_In. unfold L. apply filter_In.
        split; [exact Hx | exact M].
    - now rewrite andb_false_r. }
  rewrite HL. unfold filter_tree, tree_reparenting at 2. cbn [nodes].
  fold L ns. f_equal. f_equal. apply keep_fold_ext.
  intros x Hx. rewrite Hg. pose proof Hx as HxL.
  unfold L in Hx. apply filter_In in Hx as [_ M].
  unfold validate_by_taxid in M. rewrite M, andb_true_r.
  apply list_mem_In in HxL. now rewrite HxL.
Qed.

End FastProofs.

(** ** The claims on the fast variant *)
Module FastClaims.
Import Fast FastProofs Mock.

(** C1 (code_bug).  On a built tree, a search with include list [S] and no
    filter that returns, returns without duplicates exactly the ids reached
    from some [s] in [S] by one or more parent links: the strict
    descendants, without [s] itself. *)
Theorem search_include_strict_descendants (lg : bool) lines t S :
  build_tree lines = Ok t ->
  forall r, search lg t S [] = Returned r ->
  NoDup r /\ forall y, In y r <-> exists s, In s S /\ descendant t s y.
Proof.
  intros Hb r Hs. pose proof (build_children lines t Hb) as Hch.
  apply search_returned in Hs as [_ Hs].
  apply search_taxids_nofilter in Hs as [Hnd Hr]. split; [exact Hnd|].
  intros y. rewrite Hr. split.
  - intros (s & c & Hs & Hc & Hcy). exists s. split; [exact Hs|].
    apply (reach_descendant t Hch). eauto.
  - intros (s & Hs & Hd). apply (reach_descendant t Hch) in Hd as (c & ? & ?).
    eauto.
Qed.

Lemma search_include_strict_descendants_witness :
  (build_tree mock_lines = Ok mock /\ search false mock ["3"] [] = Returned ["4"; "5"]) /\
  (NoDup ["4"; "5"] /\
   forall y, In y ["4"; "5"] <-> exists s, In s ["3"] /\ descendant mock s y).
Proof.
  split; [split; reflexivity|].
  apply (search_include_strict_descendants false mock_lines mock ["3"]); reflexivity.
Defined.

(** C1, the defect: the root of a dump, ["1"] with parent ["1"], is appended
    to its own children list by [tree_reparenting], and [get_leaves] follows
    that self-link: searching the root recurses until [RecursionError]
    instead of returning the whole tree. *)
Lemma search_root_recursion :
  build_tree mock_lines = Ok mock /\ is_child mock "1" "1" /\
  lookup_list (children mock) "1" = ["1"; "2"; "6"] /\
  search true mock ["1"] [] = Raised RecursionError.
Proof.
  split; [reflexivity|]. split.
  - exists "1", (mk_node "1" "1" "no_rank"). split; [vm_compute; now left|].
    split; reflexivity.
  - split; [reflexivity|]. vm_compute. reflexivity.
Qed.




(** C4 (confirmed).  Without a filter list, [validate_taxids] is true exactly
    when every id is a key of the node table; a single unknown id is
    rejected. *)
Theorem validate_all_or_nothing t S :
  (validate_taxids t S [] = true <->
   Forall (fun x => PyDict.mem x (nodes t) = true) S) /\
  (forall x, validate_taxids t [x] [] = PyDict.mem x (nodes t)).
Proof.
  split.
  - rewrite validate_taxids_spec. split; apply Forall_impl.
    + intros x [[]|H]. exact H.
    + intros x H. now right.
  - intros x. unfold validate_taxids. simpl.
    destruct (PyDict.mem x (nodes t)); reflexivity.
Qed.

(** C5 (corrected).  A search whose include list holds an id that is neither
    a key of the node table nor in the filter list returns no list: it logs a
    warning (and returns [None]), or prints and exits without a logger, with
    one fixed message that names no id.  There is no [ignoreinvalid]. *)
Theorem search_invalid_fixed_message (lg : bool) t S F x :
  In x S -> ~ In x F -> PyDict.mem x (nodes t) = false ->
  search lg t S F = if lg then Warned search_message else Exited search_message.
Proof.
  intros Hin HF Hm. unfold search.
  assert (Hv : validate_taxids t S F = false).
  { destruct (validate_taxids t S F) eqn:E; [|reflexivity].
    apply validate_taxids_spec, Forall_forall with (x := x) in E; [|exact Hin].
    destruct E as [E|E]; [contradiction | congruence]. }
  now rewrite Hv.
Qed.

Lemma search_invalid_fixed_message_witness :
  (In "9" ["9"] /\ ~ In "9" [] /\ PyDict.mem "9" (nodes mock) = false) /\
  search true mock ["9"] [] = Warned search_message.
Proof.
  split; [split; [now left | split; [intros [] | reflexivity]]|].
  apply (search_invalid_fixed_message true mock ["9"] [] "9");
    [now left | intros [] | reflexivity].
Defined.

(** C5 fails as stated: the failure for the unknown id ["9"] does not name
    it. *)
Lemma search_invalid_message_names_nothing :
  search true mock ["9"] [] = Warned search_message /\
  String.index 0 "9" search_message = None.
Proof. split; reflexivity. Qed.

(** C8 (corrected).  [build_tree] raises no error for an id declared
    twice: the node table of a built tree holds, for every id, the last line
    declaring it. *)
Theorem build_last_write_wins lines t :
  build_tree lines = Ok t ->
  forall k, PyDict.get k (nodes t) = last_decl k lines.
Proof.
  unfold build_tree. destruct (read_nodes lines []) as [ns|e0] eqn:H; [|discriminate].
  intros [= <-] k. simpl.
  rewrite (read_nodes_last lines [] ns H k). now destruct (last_decl k lines).
Qed.

Lemma build_last_write_wins_witness :
  build_tree dup_lines =
    Ok (match build_tree dup_lines with Ok t => t | Err _ => empty_tree end) /\
  (forall k, PyDict.get k
     (nodes (match build_tree dup_lines with Ok t => t | Err _ => empty_tree end))
   = last_decl k dup_lines).
Proof.
  split; [reflexivity|]. apply (build_last_write_wins dup_lines). reflexivity.
Defined.

(** C8 fails as stated: the dump declaring ["4"] under ["2"] and again under
    ["3"] builds, and only the second declaration is kept. *)
Lemma build_duplicate_overrides :
  exists t, build_tree dup_lines = Ok t /\
    PyDict.get "4" (nodes t) = Some (mk_node "4" "3" "subspecies") /\
    lookup_list (children t) "2" = [] /\
    lookup_list (children t) "3" = ["4"].
Proof. eexists. split; [reflexivity|]. repeat split; reflexivity. Qed.

(** C10 (confirmed).  With a filter list, an id passes [validate_taxids]
    when it is in the filter list or a key of the node table; so on every
    tree, an id listed in the filter passes even when the tree lacks it. *)
Theorem validate_accepts_filter_ids t S F :
  (validate_taxids t S F = true <->
   Forall (fun x => In x F \/ PyDict.mem x (nodes t) = true) S) /\
  (forall x, validate_taxids t [x] [x] = true).
Proof.
  split; [apply validate_taxids_spec|].
  intros x. apply validate_taxids_spec. constructor; [|constructor].
  left. now left.
Qed.

End FastClaims.

(** ** Proofs about the anytree variant *)
Module AnytreeProofs.
Import Anytree FastProofs.

(** *** More dict lemmas *)

Lemma mem_In_keys {V} k (d : dict V) :
  PyDict.mem k d = true <-> In k (PyDict.keys d).
Proof.
  unfold PyDict.mem, PyDict.keys.
  induction d as [|[k' v'] d IH]; simpl; [split; [discriminate | intros []]|].
  destruct (String.eqb k k') eqn:E.
  - apply String.eqb_eq in E. split; [intros _; now left | reflexivity].
  - apply String.eqb_neq in E. rewrite IH. split; [now right|].
    intros [H|H]; [congruence | exact H].
Qed.

Lemma keys_set {V} k (v : V) d z :
  In z (PyDict.keys (PyDict.set k v d)) <-> z = k \/ In z (PyDict.keys d).
Proof.
  unfold PyDict.keys. induction d as [|[k' v'] d IH]; simpl.
  - split; [intros [->|[]]; now left | intros [->|[]]; now left].
  - destruct (String.eqb k k') eqn:E; simpl.
    + apply String.eqb_eq in E; subst. intuition congruence.
    + rewrite IH. tauto.
Qed.

Lemma nodup_keys_set {V} k (v : V) d :
  NoDup (PyDict.keys d) -> NoDup (PyDict.keys (PyDict.set k v d)).
Proof.
  induction d as [|[k' v'] d IH]; simpl; intros Hnd.
  - repeat constructor. intros [].
  - inversion Hnd as [|? ? Hn Hnd']; subst.
    destruct (String.eqb k k') eqn:E; simpl; [exact Hnd|].
    constructor; [|now apply IH].
    fold (PyDict.keys (PyDict.set k v d)). rewrite keys_set.
    apply String.eqb_neq in E. intros [->|H]; [congruence | contradiction].
Qed.

Lemma set_new {V} k (v : V) d :
  PyDict.mem k d = false -> PyDict.set k v d = (d ++ [(k, v)])%list.
Proof.
  unfold PyDict.mem. induction d as [|[k' v'] d IH]; simpl; [reflexivity|].
  destruct (String.eqb k k'); [discriminate|]. intros H. now rewrite IH.
Qed.

Lemma get_dict_select {V} (c : string -> bool) (L : dict V) :
  NoDup (PyDict.keys L) -> forall acc k,
  PyDict.get k (fold_left (fun acc kv =>
      if c (fst kv) then PyDict.set (fst kv) (snd kv) acc else acc) L acc) =
  if c k && PyDict.mem k L then PyDict.get k L else PyDict.get k acc.
Proof.
  induction L as [|[k1 v1] L IH]; intros Hnd acc k; simpl.
  - unfold PyDict.mem. simpl. now destruct (c k).
  - inversion Hnd as [|? ? Hn Hnd']; subst. rewrite IH by exact Hnd'.
    unfold PyDict.mem; simpl.
    destruct (String.eqb k k1) eqn:E.
    + apply String.eqb_eq in E; subst k1.
      assert (Hm : PyDict.get k L = None).
      { destruct (PyDict.get k L) eqn:G; [|reflexivity].
        exfalso. apply Hn. apply mem_In_keys. unfold PyDict.mem. now rewrite G. }
      rewrite Hm, andb_false_r.
      destruct (c k); simpl; [apply get_set_eq | reflexivity].
    + apply String.eqb_neq in E.
      destruct (c k1); [rewrite get_set_neq by exact E|]; reflexivity.
Qed.

Lemma get_select (c : string -> bool) (L : dict anode) k :
  NoDup (PyDict.keys L) ->
  PyDict.get k (dict_select c L) =
  if c k && PyDict.mem k L then PyDict.get k L else None.
Proof.
  intros H. unfold dict_select. rewrite (get_dict_select c L H [] k).
  now destruct (c k && PyDict.mem k L).
Qed.

Lemma nodup_dict_select c d : NoDup (PyDict.keys (dict_select c d)).
Proof.
  unfold dict_select.
  assert (H : forall acc, NoDup (PyDict.keys acc) ->
    NoDup (PyDict.keys (fold_left (fun acc kv =>
      if c (fst kv) then PyDict.set (fst kv) (snd kv) acc else acc) d acc))).
  { induction d as [|kv d IH]; intros acc Hacc; simpl; [exact Hacc|].
    apply IH. destruct (c (fst kv)); [now apply nodup_keys_set | exact Hacc]. }
  apply H. constructor.
Qed.

Lemma dict_select_all c d :
  NoDup (PyDict.keys d) -> (forall k, In k (PyDict.keys d) -> c k = true) ->
  dict_select c d = d.
Proof.
  intros Hnd Hc. unfold dict_select.
  assert (H : forall (L acc : dict anode), NoDup (PyDict.keys (acc ++ L)%list) ->
    (forall k, In k (PyDict.keys L) -> c k = true) ->
    fold_left (fun acc kv =>
      if c (fst kv) then PyDict.set (fst kv) (snd kv) acc else acc) L acc =
    (acc ++ L)%list).
  { induction L as [|[k v] L IH]; intros acc Hn HL; simpl; [now rewrite app_nil_r|].
    rewrite (HL k) by now left.
    rewrite set_new.
    - rewrite IH; [now rewrite <- app_assoc | now rewrite <- app_assoc |].
      intros k' Hk'. apply HL. now right.
    - destruct (PyDict.mem k acc) eqn:M; [|reflexivity].
      apply mem_In_keys in M. unfold PyDict.keys in Hn, M.
      rewrite map_app in Hn. simpl in Hn.
      apply NoDup_remove_2 in Hn. exfalso. apply Hn. apply in_or_app. now left. }
  apply (H d []); [exact Hnd | exact Hc].
Qed.

(** *** Chains of parent links *)

Lemma up_head f d x l : up f d x = Some l -> exists l', l = x :: l'.
Proof.
  destruct f as [|f]; simpl; [discriminate|].
  destruct (parent_of d x) as [p|]; [|intros [= <-]; eauto].
  destruct (up f d p); [intros [= <-]; eauto | discriminate].
Qed.

Lemma up_S f d x :
  up (S f) d x =
  match parent_of d x with
  | None => Some [x]
  | Some p => match up f d p with None => None | Some l => Some (x :: l) end
  end.
Proof. reflexivity. Qed.

Lemma up_mono f : forall d x l, up f d x = Some l -> up (S f) d x = Some l.
Proof.
  induction f as [|f IH]; intros d x l H; [discriminate|].
  rewrite up_S in H |- *.
  destruct (parent_of d x) as [p|]; [|exact H].
  destruct (up f d p) as [l0|] eqn:Hp; [|discriminate].
  now rewrite (IH _ _ _ Hp).
Qed.

Lemma up_suffix f : forall d x l, up f d x = Some l ->
  forall y, In y l -> exists pre l', l = (pre ++ l')%list /\ up f d y = Some l'.
Proof.
  induction f as [|f IH]; intros d x l H y Hy; [discriminate|].
  pose proof H as H0. simpl in H.
  destruct (parent_of d x) as [p|].
  - destruct (up f d p) as [l0|] eqn:Hp; [|discriminate].
    injection H as <-. destruct Hy as [<-|Hy].
    + exists [], (x :: l0). split; [reflexivity | exact H0].
    + destruct (IH _ _ _ Hp y Hy) as (pre & l' & -> & Hy').
      exists (x :: pre), l'. split; [reflexivity | now apply up_mono].
  - injection H as <-. destruct Hy as [<-|[]].
    exists [], [x]. split; [reflexivity | exact H0].
Qed.

Lemma up_root_last f : forall d r x l, parent_of d r = None ->
  up f d x = Some l -> In r l -> exists pre, l = (pre ++ [r])%list.
Proof.
  induction f as [|f IH]; intros d r x l Hr H Hin; [discriminate|].
  simpl in H. destruct (parent_of d x) as [p|] eqn:Hx.
  - destruct (up f d p) as [l0|] eqn:Hp; [|discriminate].
    injection H as <-. destruct Hin as [->|Hin]; [congruence|].
    destruct (IH _ _ _ _ Hr Hp Hin) as [pre ->]. now exists (x :: pre).
  - injection H as <-. destruct Hin as [->|[]]. now exists [].
Qed.

Lemma suffix_last pre' : forall (l' pre : list string) r, l' <> [] ->
  (pre ++ [r])%list = (pre' ++ l')%list -> In r l'.
Proof.
  induction pre' as [|a pre' IH]; intros l' pre r Hne H; simpl in H.
  - rewrite <- H. apply in_or_app. right. now left.
  - destruct pre as [|b pre]; simpl in H.
    + injection H as _ H. symmetry in H. apply app_eq_nil in H as [_ ->].
      contradiction.
    + injection H as _ H. exact (IH _ _ _ Hne H).
Qed.

Lemma up_mem f : forall d x l, up f d x = Some l ->
  forall y, In y l -> y = x \/ PyDict.mem y d = true.
Proof.
  induction f as [|f IH]; intros d x l H y Hy; [discriminate|].
  simpl in H. destruct (parent_of d x) as [p|] eqn:Hx.
  - destruct (up f d p) as [l0|] eqn:Hp; [|discriminate].
    injection H as <-. destruct Hy as [->|Hy]; [now left|]. right.
    destruct (IH _ _ _ Hp y Hy) as [->|H]; [|exact H].
    unfold parent_of in Hx. destruct (PyDict.get x d) as [n|]; [|discriminate].
    destruct (PyDict.mem (parentTaxId n) d) eqn:M; [|discriminate].
    simpl in Hx. destruct (negb _); [|discriminate]. injection Hx as <-. exact M.
  - injection H as <-. destruct Hy as [->|[]]. now left.
Qed.

Lemma parent_of_restrict d d' x :
  sub_dict d' d -> PyDict.get x d' = PyDict.get x d ->
  (forall p, parent_of d x = Some p -> PyDict.get p d' = PyDict.get p d) ->
  parent_of d' x = parent_of d x.
Proof.
  intros Hsub Hx Hp. unfold parent_of in Hp |- *. rewrite Hx.
  destruct (PyDict.get x d) as [n|]; [|reflexivity].
  destruct (String.eqb (parentTaxId n) x) eqn:E; simpl;
    [now rewrite !andb_false_r|rewrite !andb_true_r].
  destruct (PyDict.mem (parentTaxId n) d) eqn:M.
  - specialize (Hp _ eq_refl). unfold PyDict.mem in M |- *. now rewrite Hp, M.
  - destruct (PyDict.mem (parentTaxId n) d') eqn:M'; [|reflexivity].
    apply Hsub in M'. congruence.
Qed.

Lemma up_restrict f : forall d d' x l, sub_dict d' d ->
  up f d x = Some l -> (forall y, In y l -> PyDict.get y d' = PyDict.get y d) ->
  up f d' x = Some l.
Proof.
  induction f as [|f IH]; intros d d' x l Hsub H Hl; [discriminate|].
  simpl in H |- *.
  rewrite (parent_of_restrict d d' x Hsub).
  - destruct (parent_of d x) as [p|] eqn:Hx; [|exact H].
    destruct (up f d p) as [l0|] eqn:Hp; [|discriminate].
    injection H as <-. rewrite (IH d d' p l0 Hsub Hp); [reflexivity|].
    intros y Hy. apply Hl. now right.
  - apply Hl. destruct (parent_of d x) as [p|]; [|now injection H as <-; left].
    destruct (up f d p); [injection H as <-; now left | discriminate].
  - intros p Hx. rewrite Hx in H. destruct (up f d p) as [l0|] eqn:Hp; [|discriminate].
    injection H as <-. apply Hl. right.
    destruct (up_head _ _ _ _ Hp) as [l1 ->]. now left.
Qed.

(** *** Trees, paths and [find] *)

Lemma reparenting_ok d r t :
  tree_reparenting d r = Ok t -> t = mk_atree d r /\ PyDict.mem r d = true.
Proof.
  unfold tree_reparenting.
  destruct (forallb _ d); [|discriminate].
  destruct (forallb _ d); [|discriminate].
  destruct (PyDict.mem r d) eqn:M; [|discriminate]. now intros [= <-].
Qed.

Lemma in_tree_chain t x :
  in_tree t x = true ->
  PyDict.mem x (an_nodes t) = true /\
  up Fast.recursion_limit (an_nodes t) x = Some (chain t x) /\
  In (root_key t) (chain t x).
Proof.
  unfold in_tree, chain. rewrite andb_true_iff, list_mem_In.
  destruct (up Fast.recursion_limit (an_nodes t) x); [tauto|].
  intros [_ []].
Qed.

Lemma chain_of t x l :
  up Fast.recursion_limit (an_nodes t) x = Some l -> chain t x = l.
Proof. unfold chain. now intros ->. Qed.

Lemma in_tree_intro t x l :
  PyDict.mem x (an_nodes t) = true ->
  up Fast.recursion_limit (an_nodes t) x = Some l -> In (root_key t) l ->
  in_tree t x = true.
Proof.
  intros Hm Hu Hr. unfold in_tree. rewrite (chain_of _ _ _ Hu), Hm.
  simpl. now apply list_mem_In.
Qed.

Lemma chain_closed t s y :
  parent_of (an_nodes t) (root_key t) = None ->
  in_tree t s = true -> In y (chain t s) ->
  in_tree t y = true /\ incl (chain t y) (chain t s).
Proof.
  intros Hr Hs Hy. apply in_tree_chain in Hs as (Hm & Hu & Hin).
  destruct (up_suffix _ _ _ _ Hu y Hy) as (pre & l' & Heq & Hy').
  destruct (up_root_last _ _ _ _ _ Hr Hu Hin) as [pre0 Heq0].
  destruct (up_head _ _ _ _ Hy') as [l1 Hl1].
  assert (Hrl : In (root_key t) l').
  { apply (suffix_last pre l' pre0); [rewrite Hl1; discriminate | congruence]. }
  split.
  - apply (in_tree_intro t y l'); [|exact Hy' | exact Hrl].
    destruct (up_mem _ _ _ _ Hu y Hy) as [->|H]; [exact Hm | exact H].
  - rewrite (chain_of _ _ _ Hy'), Heq. intros z Hz. apply in_or_app. now right.
Qed.

Lemma find_some t x n : find t x = Some n -> n = x /\ in_tree t x = true.
Proof. unfold find. destruct (in_tree t x); [now intros [= <-] | discriminate]. Qed.

Lemma path_names_spec t S : forall P, path_names t S = Ok P ->
  (forall x, In x P <-> exists s, In s S /\ In x (path t s)) /\
  (forall s, In s S -> in_tree t s = true).
Proof.
  induction S as [|s S IH]; intros P H; simpl in H.
  - injection H as <-. split; [intros x; split; [intros []|intros (s & [] & _)]|].
    intros s [].
  - destruct (find t s) as [n|] eqn:Hf; [|discriminate].
    apply find_some in Hf as [-> Hs].
    destruct (path_names t S) as [P'|e]; [|discriminate].
    injection H as <-. destruct (IH P' eq_refl) as [HP HS]. split.
    + intros x. rewrite in_app_iff, HP. split.
      * intros [H|(s' & Hs' & H)]; [exists s; now split; [left|]|].
        exists s'. split; [now right | exact H].
      * intros (s' & [<-|Hs'] & H); [now left|]. right. eauto.
    + intros s' [<-|Hs']; [exact Hs | now apply HS].
Qed.

Lemma path_names_same t t' S : forall P,
  path_names t S = Ok P ->
  (forall s, In s S -> find t' s = Some s /\ path t' s = path t s) ->
  path_names t' S = Ok P.
Proof.
  induction S as [|s S IH]; intros P H Hs; simpl in H |- *; [exact H|].
  destruct (find t s) as [n|] eqn:Hf; [|discriminate].
  apply find_some in Hf as [-> _].
  destruct (Hs s (or_introl eq_refl)) as [-> Hp].
  destruct (path_names t S) as [P'|e] eqn:HP; [|discriminate].
  rewrite (IH P' eq_refl); [now rewrite Hp|].
  intros s' Hs'. apply Hs. now right.
Qed.

(** *** [filter_tree] on a built tree *)

Section Filter.
Variables (d : dict anode) (r : string) (t : atree) (S : list string) (t' : atree).
Hypothesis Hnd : NoDup (PyDict.keys d).
Hypothesis Hb : tree_reparenting d r = Ok t.
Hypothesis Hroot : parent_of d r = None.
Hypothesis Hf : filter_tree t S = Ok t'.

Lemma filter_shape : exists P,
  path_names t S = Ok P /\ t = mk_atree d r /\
  tree_reparenting (taxon_nodes t P) r = Ok t' /\
  t' = mk_atree (taxon_nodes t P) r.
Proof.
  destruct (reparenting_ok _ _ _ Hb) as [-> _].
  unfold filter_tree in Hf. simpl in Hf.
  destruct (path_names (mk_atree d r) S) as [P|e]; [|discriminate].
  exists P. split; [reflexivity|]. split; [reflexivity|]. split; [exact Hf|].
  now destruct (reparenting_ok _ _ _ Hf) as [-> _].
Qed.

Lemma get_taxon_nodes P k :
  t = mk_atree d r ->
  PyDict.get k (taxon_nodes t P) =
  if in_tree t k && list_mem k P then PyDict.get k d else None.
Proof.
  intros Ht. unfold taxon_nodes. rewrite get_select; rewrite Ht; simpl; [|exact Hnd].
  destruct (in_tree _ k && list_mem k P) eqn:C; simpl; [|reflexivity].
  destruct (PyDict.mem k d) eqn:M; [reflexivity|].
  unfold PyDict.mem in M. now destruct (PyDict.get k d).
Qed.

Lemma filter_back s x :
  In s S -> In x (chain t s) ->
  in_tree t' x = true /\ chain t' x = chain t x.
Proof.
  destruct filter_shape as (P & HP & Ht & _ & Ht').
  destruct (path_names_spec _ _ _ HP) as [HPx HS].
  intros Hs Hx. pose proof (HS s Hs) as Hts.
  assert (Hr : parent_of (an_nodes t) (root_key t) = None) by now rewrite Ht.
  destruct (chain_closed t s x Hr Hts Hx) as [Htx Hincl].
  destruct (in_tree_chain t x Htx) as (Hm & Hu & Hin).
  assert (Hget : forall y, In y (chain t x) ->
            PyDict.get y (taxon_nodes t P) = PyDict.get y d).
  { intros y Hy. rewrite (get_taxon_nodes P y Ht).
    apply Hincl in Hy. destruct (chain_closed t s y Hr Hts Hy) as [Hty _].
    rewrite Hty. simpl.
    assert (HyP : list_mem y P = true).
    { apply list_mem_In, HPx. exists s. split; [exact Hs|].
      unfold path. now rewrite <- in_rev. }
    now rewrite HyP. }
  assert (Hsub : sub_dict (taxon_nodes t P) d).
  { intros z Hz. unfold PyDict.mem in Hz |- *.
    rewrite (get_taxon_nodes P z Ht) in Hz.
    destruct (in_tree t z && list_mem z P); [exact Hz | discriminate]. }
  assert (Hd : an_nodes t = d) by now rewrite Ht.
  assert (Hrk : root_key t = r) by now rewrite Ht.
  rewrite Hd in Hu, Hm. rewrite Hrk in Hin.
  pose proof (up_restrict _ _ _ _ _ Hsub Hu Hget) as Hu'.
  rewrite Ht'. split.
  - apply (in_tree_intro _ x (chain t x)); cbn [an_nodes root_key];
      [| exact Hu' | exact Hin].
    unfold PyDict.mem. rewrite Hget; [exact Hm|].
    destruct (up_head _ _ _ _ Hu) as [l Hl]. rewrite Hl. now left.
  - now apply chain_of.
Qed.

Lemma filter_fwd x :
  in_tree t' x = true -> exists s, In s S /\ In x (path t s).
Proof.
  destruct filter_shape as (P & HP & Ht & _ & Ht').
  destruct (path_names_spec _ _ _ HP) as [HPx _].
  intros Hx. apply in_tree_chain in Hx as (Hm & _).
  rewrite Ht' in Hm. simpl in Hm. unfold PyDict.mem in Hm.
  rewrite (get_taxon_nodes P x Ht) in Hm.
  destruct (in_tree t x && list_mem x P) eqn:C; [|discriminate].
  apply andb_true_iff in C as [_ C]. apply list_mem_In in C. now apply HPx.
Qed.

Lemma filter_nodes x :
  in_tree t' x = true <-> exists s, In s S /\ In x (path t s).
Proof.
  split; [apply filter_fwd|]. intros (s & Hs & Hx).
  unfold path in Hx. rewrite <- in_rev in Hx. exact (proj1 (filter_back s x Hs Hx)).
Qed.

Lemma filter_root : in_tree t' r = true.
Proof.
  destruct filter_shape as (P & HP & Ht & Hb' & Ht').
  destruct (reparenting_ok _ _ _ Hb') as [_ Hm].
  unfold PyDict.mem in Hm. rewrite (get_taxon_nodes P r Ht) in Hm.
  destruct (in_tree t r && list_mem r P) eqn:C; [|discriminate].
  apply andb_true_iff in C as [_ C]. apply list_mem_In in C.
  destruct (path_names_spec _ _ _ HP) as [HPx _].
  apply HPx in C as (s & Hs & Hx). unfold path in Hx. rewrite <- in_rev in Hx.
  exact (proj1 (filter_back s r Hs Hx)).
Qed.

Lemma filter_parent_closed x :
  in_tree t' x = true ->
  x = r \/ exists p, parent_of d x = Some p /\ in_tree t' p = true.
Proof.
  intros Hx. destruct (filter_fwd x Hx) as (s & Hs & Hxs).
  unfold path in Hxs. rewrite <- in_rev in Hxs.
  destruct filter_shape as (P & HP & Ht & _ & _).
  destruct (path_names_spec _ _ _ HP) as [_ HS].
  assert (Hr : parent_of (an_nodes t) (root_key t) = None) by now rewrite Ht.
  destruct (chain_closed t s x Hr (HS s Hs) Hxs) as [Htx Hincl].
  destruct (in_tree_chain t x Htx) as (_ & Hu & Hin).
  assert (Hd : an_nodes t = d) by now rewrite Ht.
  assert (Hrk : root_key t = r) by now rewrite Ht.
  rewrite Hd in Hu. rewrite Hrk in Hin.
  unfold Fast.recursion_limit in Hu. rewrite up_S in Hu.
  destruct (parent_of d x) as [p|] eqn:Hp.
  - right. exists p. split; [reflexivity|].
    destruct (up _ d p) as [l0|] eqn:Hl0; [|discriminate].
    injection Hu as Hu. apply (filter_back s p Hs). apply Hincl.
    rewrite <- Hu. destruct (up_head _ _ _ _ Hl0) as [l1 ->]. right. now left.
  - left. injection Hu as Hu. rewrite <- Hu in Hin.
    destruct Hin as [->|[]]. reflexivity.
Qed.

Lemma filter_idem : filter_tree t' S = Ok t'.
Proof.
  destruct filter_shape as (P & HP & Ht & Hb' & Ht').
  destruct (path_names_spec _ _ _ HP) as [HPx HS].
  unfold filter_tree. rewrite (path_names_same t t' S P HP).
  - assert (E : taxon_nodes t' P = taxon_nodes t P).
    { rewrite Ht' at 1. unfold taxon_nodes at 1. cbn [an_nodes].
      apply dict_select_all; [apply nodup_dict_select|].
      intros k Hk. rewrite <- Ht'. apply mem_In_keys in Hk.
      unfold PyDict.mem in Hk. rewrite (get_taxon_nodes P k Ht) in Hk.
      destruct (in_tree t k && list_mem k P) eqn:C; [|discriminate].
      apply andb_true_iff in C as [_ C]. rewrite C, andb_true_r.
      apply list_mem_In, HPx in C as (s & Hs & Hk').
      unfold path in Hk'. rewrite <- in_rev in Hk'.
      exact (proj1 (filter_back s k Hs Hk')). }
    rewrite E. replace (root_key t') with r by now rewrite Ht'. exact Hb'.
  - intros s' Hs'. pose proof (HS s' Hs') as Hts.
    destruct (in_tree_chain t s' Hts) as (_ & Hu & _).
    destruct (up_head _ _ _ _ Hu) as [l Hl].
    destruct (filter_back s' s' Hs') as [Hin Hch]; [rewrite Hl; now left|].
    unfold find, path. now rewrite Hin, Hch.
Qed.

End Filter.

(** *** [search_tree] *)

Lemma leaves_of_rank_spec t rk S : forall l,
  leaves_of_rank t rk S = Ok l ->
  forall y, In y l <-> exists s, In s S /\ In y (leaves t s) /\ rank_of t y = Some rk.
Proof.
  induction S as [|s S IH]; intros l H y; simpl in H.
  - injection H as <-. split; [intros []|intros (s & [] & _)].
  - destruct (find t s) as [n|] eqn:Hf; [|discriminate].
    apply find_some in Hf as [-> _].
    destruct (leaves_of_rank t rk S) as [l'|e]; [|discriminate].
    injection H as <-. rewrite in_app_iff, filter_In, (IH l' eq_refl).
    assert (Hr : (match rank_of t y with Some r => String.eqb r rk | None => false end = true)
                 <-> rank_of t y = Some rk).
    { destruct (rank_of t y) as [r|]; [|split; discriminate].
      rewrite String.eqb_eq. split; [now intros ->|now intros [= ->]]. }
    rewrite Hr. split.
    + intros [[H1 H2]|(s' & Hs' & H1 & H2)].
      * exists s. split; [now left | now split].
      * exists s'. split; [now right | now split].
    + intros (s' & [<-|Hs'] & H1 & H2); [now left|]. right. exists s'. auto.
Qed.

End AnytreeProofs.

(** ** The claims on filtering and on the anytree search *)
Module AnytreeClaims.
Import Anytree FastProofs AnytreeProofs Mock.

(** C3 (code_bug), the anytree variant: on a tree built by
    [tree_reparenting] from a dict without repeated keys whose root has no
    parent, [filter_tree] keeps exactly the nodes on the path from the root
    to some keep-ID: a descendant of a keep-ID stays only when it is itself
    on such a path.  The result is rooted at the same key, contains the
    root, and the parent of every node it keeps. *)
Theorem filter_keeps_root_paths d r t S t' :
  NoDup (PyDict.keys d) -> tree_reparenting d r = Ok t -> parent_of d r = None ->
  filter_tree t S = Ok t' ->
  (forall x, in_tree t' x = true <-> exists s, In s S /\ In x (path t s)) /\
  root_key t' = r /\ in_tree t' r = true /\
  (forall x, in_tree t' x = true ->
     x = r \/ exists p, parent_of d x = Some p /\ in_tree t' p = true).
Proof.
  intros Hnd Hb Hr Hf. split; [|split; [|split]].
  - exact (filter_nodes d r t S t' Hnd Hb Hr Hf).
  - destruct (filter_shape d r t S t' Hb Hf) as (P & _ & _ & _ & ->).
    reflexivity.
  - exact (filter_root d r t S t' Hnd Hb Hr Hf).
  - exact (filter_parent_closed d r t S t' Hnd Hb Hr Hf).
Qed.

Lemma filter_keeps_root_paths_witness :
  (NoDup (PyDict.keys amock_nodes) /\ tree_reparenting amock_nodes "1" = Ok amock /\
   parent_of amock_nodes "1" = None /\ filter_tree amock ["3"] = Ok amock_keep3) /\
  ((forall x, in_tree amock_keep3 x = true <->
              exists s, In s ["3"] /\ In x (path amock s)) /\
   root_key amock_keep3 = "1" /\ in_tree amock_keep3 "1" = true /\
   (forall x, in_tree amock_keep3 x = true ->
      x = "1" \/ exists p, parent_of amock_nodes x = Some p /\ in_tree amock_keep3 p = true)).
Proof.
  assert (Hnd : NoDup (PyDict.keys amock_nodes)).
  { simpl. repeat constructor; simpl; intuition discriminate. }
  assert (Hb : tree_reparenting amock_nodes "1" = Ok amock) by (vm_compute; reflexivity).
  assert (Hr : parent_of amock_nodes "1" = None) by reflexivity.
  assert (Hf : filter_tree amock ["3"] = Ok amock_keep3) by (vm_compute; reflexivity).
  split; [now repeat split|].
  exact (filter_keeps_root_paths amock_nodes "1" amock ["3"] amock_keep3 Hnd Hb Hr Hf).
Defined.

(** C3, the defect: the fast [filter_tree], whose comment announces "all
    required (and unique) parents and children taxIDs", copies only the
    listed nodes.  Keeping 3 gives a node table with 3, whose parent 2 is
    missing, without the root 1 and without the child 4; the anytree
    variant keeps 1, 2 and 3. *)
Lemma fast_filter_drops_ancestors :
  PyDict.get "3" (Fast.nodes (Fast.filter_tree mock ["3"])) =
    Some (Fast.mk_node "3" "2" "genus") /\
  PyDict.mem "2" (Fast.nodes (Fast.filter_tree mock ["3"])) = false /\
  PyDict.mem "1" (Fast.nodes (Fast.filter_tree mock ["3"])) = false /\
  PyDict.mem "4" (Fast.nodes (Fast.filter_tree mock ["3"])) = false /\
  PyDict.keys (Fast.nodes (Fast.filter_tree mock ["3"])) = ["3"] /\
  (in_tree amock_keep3 "1" && in_tree amock_keep3 "2" && in_tree amock_keep3 "3") = true.
Proof. vm_compute. repeat split. Qed.

(** C7: filtering again with the same keep-IDs changes nothing: for the
    anytree variant on a built tree, [filter_tree] returns the same tree;
    for the fast variant, on any tree. *)
Theorem filter_idempotent d r t S t' :
  NoDup (PyDict.keys d) -> tree_reparenting d r = Ok t -> parent_of d r = None ->
  filter_tree t S = Ok t' ->
  filter_tree t' S = Ok t' /\
  (forall ft : Fast.tree, Fast.filter_tree (Fast.filter_tree ft S) S = Fast.filter_tree ft S).
Proof.
  intros Hnd Hb Hr Hf. split.
  - exact (filter_idem d r t S t' Hnd Hb Hr Hf).
  - intros ft. apply filter_tree_idem.
Qed.

Lemma filter_idempotent_witness :
  (NoDup (PyDict.keys amock_nodes) /\ tree_reparenting amock_nodes "1" = Ok amock /\
   parent_of amock_nodes "1" = None /\ filter_tree amock ["3"] = Ok amock_keep3) /\
  (filter_tree amock_keep3 ["3"] = Ok amock_keep3 /\
   (forall ft : Fast.tree,
      Fast.filter_tree (Fast.filter_tree ft ["3"]) ["3"] = Fast.filter_tree ft ["3"])).
Proof.
  assert (Hnd : NoDup (PyDict.keys amock_nodes)).
  { simpl. repeat constructor; simpl; intuition discriminate. }
  assert (Hb : tree_reparenting amock_nodes "1" = Ok amock) by (vm_compute; reflexivity).
  assert (Hr : parent_of amock_nodes "1" = None) by reflexivity.
  assert (Hf : filter_tree amock ["3"] = Ok amock_keep3) by (vm_compute; reflexivity).
  split; [now repeat split|].
  exact (filter_idempotent amock_nodes "1" amock ["3"] amock_keep3 Hnd Hb Hr Hf).
Defined.

(** C9: when [search_tree] returns, its result has no duplicates and holds
    exactly the searched IDs that are in the filter list, and the leaves of
    the searched nodes whose rank is the search rank. *)
Theorem search_tree_rank_leaves t S F rk res :
  search_tree t S F rk = Ok res ->
  NoDup res /\
  forall y, In y res <->
    (In y S /\ In y F) \/
    exists s, In s S /\ In y (leaves t s) /\ rank_of t y = Some rk.
Proof.
  unfold search_tree. destruct (leaves_of_rank t rk S) as [l|e] eqn:Hl; [|discriminate].
  intros [= <-]. split; [apply NoDup_nodup|].
  intros y. unfold py_set. rewrite nodup_In, in_app_iff, filter_In, list_mem_In.
  now rewrite (leaves_of_rank_spec t rk S l Hl y).
Qed.

Lemma search_tree_rank_leaves_witness :
  search_tree amock ["3"] [] default_search_rank = Ok ["4"; "5"] /\
  (NoDup ["4"; "5"] /\
   forall y, In y ["4"; "5"] <->
     (In y ["3"] /\ In y []) \/
     exists s, In s ["3"] /\ In y (leaves amock s) /\ rank_of amock y = Some default_search_rank).
Proof.
  assert (H : search_tree amock ["3"] [] default_search_rank = Ok ["4"; "5"])
    by (vm_compute; reflexivity).
  split; [exact H|].
  exact (search_tree_rank_leaves amock ["3"] [] default_search_rank ["4"; "5"] H).
Defined.

(** C9, counterexample: searching the species leaf 4 with an empty filter
    list returns 4 itself. *)
Lemma search_species_leaf_returns_itself :
  search_tree amock ["4"] [] default_search_rank = Ok ["4"].
Proof. vm_compute. reflexivity. Qed.

End AnytreeClaims.

(** ** Proofs about utils.py *)
Module UtilsProofs.
Import Utils.

(** *** [label_to_id] and [escape_literal] *)

Lemma label_to_id_cons c s :
  label_to_id (String c s) =
  String (if Ascii.eqb (if Ascii.eqb c " " then "_" else c) "-" then "_"
          else (if Ascii.eqb c " " then "_" else c))%char (label_to_id s).
Proof. reflexivity. Qed.

Lemma label_to_id_chars s :
  ~ In " "%char (list_ascii_of_string (label_to_id s)) /\
  ~ In "-"%char (list_ascii_of_string (label_to_id s)).
Proof.
  induction s as [|c s [IH1 IH2]]; [simpl; tauto|].
  rewrite label_to_id_cons. simpl.
  destruct (Ascii.eqb c " ") eqn:E1; simpl.
  - split; intros [H|H]; try discriminate; contradiction.
  - destruct (Ascii.eqb c "-") eqn:E2.
    + split; intros [H|H]; try discriminate; contradiction.
    + apply Ascii.eqb_neq in E1, E2.
      split; intros [H|H]; try contradiction; congruence.
Qed.

Lemma replace_char_absent a b s :
  ~ In a (list_ascii_of_string s) -> replace_char a b s = s.
Proof.
  induction s as [|c s IH]; simpl; [reflexivity|]. intros H.
  destruct (Ascii.eqb c a) eqn:E.
  - apply Ascii.eqb_eq in E. subst. tauto.
  - rewrite IH; tauto.
Qed.

Lemma label_to_id_idem s : label_to_id (label_to_id s) = label_to_id s.
Proof.
  destruct (label_to_id_chars s) as [H1 H2]. unfold label_to_id at 1.
  rewrite (replace_char_absent _ _ _ H1). exact (replace_char_absent _ _ _ H2).
Qed.

Lemma label_to_id_length s : String.length (label_to_id s) = String.length s.
Proof.
  induction s as [|c s IH]; [reflexivity|]. rewrite label_to_id_cons. simpl. now rewrite IH.
Qed.

Lemma escape_not_quote s t : escape_literal s <> String "034"%char t.
Proof.
  destruct s as [|c s]; cbn [escape_literal]; [discriminate|].
  destruct (Ascii.eqb c "034") eqn:E; [discriminate|].
  intros [= -> _]. rewrite Ascii.eqb_refl in E. discriminate.
Qed.

Lemma escape_inj s1 : forall s2, escape_literal s1 = escape_literal s2 -> s1 = s2.
Proof.
  induction s1 as [|c1 s1 IH]; intros [|c2 s2]; cbn [escape_literal]; try reflexivity.
  - destruct (Ascii.eqb c2 "034"); discriminate.
  - destruct (Ascii.eqb c1 "034"); discriminate.
  - destruct (Ascii.eqb c1 "034") eqn:E1, (Ascii.eqb c2 "034") eqn:E2.
    + apply Ascii.eqb_eq in E1, E2. subst. intros [= H]. now rewrite (IH _ H).
    + apply Ascii.eqb_eq in E1. subst c1.
      intros [= <- H]. exfalso. exact (escape_not_quote s2 _ (eq_sym H)).
    + apply Ascii.eqb_eq in E2. subst c2.
      intros [= -> H]. exfalso. exact (escape_not_quote s1 _ H).
    + intros [= <- H]. now rewrite (IH _ H).
Qed.

Lemma escape_fixed s :
  escape_literal s = s <-> ~ In "034"%char (list_ascii_of_string s).
Proof.
  induction s as [|c s IH]; cbn [escape_literal list_ascii_of_string In]; [tauto|].
  destruct (Ascii.eqb c "034") eqn:E.
  - apply Ascii.eqb_eq in E. subst. split; [|tauto].
    intros [=].
  - apply Ascii.eqb_neq in E. split.
    + intros [= H]. apply IH in H. intros [H'|H']; [congruence | tauto].
    + intros H. f_equal. apply IH. tauto.
Qed.

(** *** [str.split] *)

Lemma prefix_drop sep : forall s,
  String.prefix sep s = true -> s = (sep ++ str_drop (String.length sep) s)%string.
Proof.
  induction sep as [|a sep IH]; intros s H; simpl; [reflexivity|].
  destruct s as [|c s]; simpl in H; [discriminate|].
  destruct (ascii_dec a c) as [->|]; [|discriminate]. f_equal. now apply IH.
Qed.

Lemma drop_length n : forall s, String.length (str_drop n s) = String.length s - n.
Proof.
  induction n as [|n IH]; intros [|c s]; simpl; try lia. apply IH.
Qed.

Lemma split_go_nonempty f sep s : split_go f sep s <> [].
Proof.
  revert s. induction f as [|f IH]; intros [|c s]; cbn [split_go]; try discriminate.
  destruct (String.prefix sep (String c s)); [discriminate|].
  destruct (split_go f sep s); discriminate.
Qed.

Lemma concat_cons_first sep c l : l <> [] ->
  String.concat sep (match l with [] => [String c EmptyString] | w :: ws => String c w :: ws end)
  = String c (String.concat sep l).
Proof. destruct l as [|w [|w' ws]]; [contradiction | reflexivity | reflexivity]. Qed.

Lemma concat_empty_first sep l : l <> [] ->
  String.concat sep (EmptyString :: l) = (sep ++ String.concat sep l)%string.
Proof. destruct l; [contradiction | reflexivity]. Qed.

Lemma split_go_concat sep f : forall s,
  sep <> "" -> String.length s < f -> String.concat sep (split_go f sep s) = s.
Proof.
  induction f as [|f IH]; intros s Hsep Hlen; [lia|].
  destruct s as [|c s]; cbn [split_go]; [reflexivity|].
  destruct (String.prefix sep (String c s)) eqn:P.
  - rewrite concat_empty_first by apply split_go_nonempty.
    rewrite IH; [symmetry; now apply prefix_drop | exact Hsep |].
    rewrite drop_length. destruct sep; [contradiction|]. simpl in *. lia.
  - rewrite concat_cons_first by apply split_go_nonempty.
    rewrite IH; [reflexivity | exact Hsep | simpl in Hlen; lia].
Qed.

Lemma py_split_concat sep s :
  sep <> "" -> String.concat sep (py_split sep s) = s.
Proof. intros H. apply split_go_concat; [exact H | lia]. Qed.

Lemma py_split_nonempty sep s : py_split sep s <> [].
Proof. apply split_go_nonempty. Qed.

(** *** Whitespace *)

Lemma lstrip_head s :
  match lstrip s with String c _ => is_space c = false | EmptyString => True end.
Proof.
  induction s as [|c s IH]; simpl; [exact I|].
  destruct (is_space c) eqn:E; [exact IH | exact E].
Qed.

Lemma rstrip_nonempty_head s c s' :
  rstrip s = String c s' -> exists t, s = String c t.
Proof.
  destruct s as [|d t]; simpl; [discriminate|].
  destruct (is_space d && String.eqb (rstrip t) ""); [discriminate|].
  intros [= -> _]. now exists t.
Qed.

Lemma rstrip_idem s : rstrip (rstrip s) = rstrip s.
Proof.
  induction s as [|c s IH]; simpl; [reflexivity|].
  destruct (is_space c && String.eqb (rstrip s) "") eqn:E; [reflexivity|].
  simpl. rewrite IH, E. reflexivity.
Qed.

Lemma lstrip_rstrip s :
  match s with String c _ => is_space c = false | EmptyString => True end ->
  lstrip (rstrip s) = rstrip s.
Proof.
  destruct s as [|c s]; simpl; [reflexivity|]. intros Hc.
  rewrite Hc. simpl. now rewrite Hc.
Qed.

Lemma strip_idem s : strip (strip s) = strip s.
Proof.
  unfold strip. rewrite lstrip_rstrip; [apply rstrip_idem|]. apply lstrip_head.
Qed.

Lemma rstrip_no_space x :
  (forall c, In c (list_ascii_of_string x) -> is_space c = false) -> rstrip x = x.
Proof.
  induction x as [|c x IH]; simpl; intros H; [reflexivity|].
  rewrite (H c (or_introl eq_refl)). simpl. f_equal. apply IH. auto.
Qed.

Lemma rstrip_line x :
  (forall c, In c (list_ascii_of_string x) -> is_space c = false) ->
  rstrip (x ++ String "010"%char EmptyString) = x.
Proof.
  induction x as [|c x IH]; simpl; intros H; [reflexivity|].
  rewrite (H c (or_introl eq_refl)). simpl. f_equal. apply IH. auto.
Qed.

Lemma rstrip_witness s :
  rstrip s <> "" ->
  exists c, In c (list_ascii_of_string (rstrip s)) /\ is_space c = false.
Proof.
  induction s as [|c s IH]; simpl; [congruence|].
  destruct (is_space c) eqn:Ec; destruct (String.eqb (rstrip s) "") eqn:Er; simpl;
    intros H; try congruence.
  - apply String.eqb_neq in Er. destruct (IH Er) as (d & Hd & Hs).
    exists d. simpl. auto.
  - exists c. simpl. auto.
  - exists c. simpl. auto.
Qed.

Lemma ws_go_words s : forall w ws, ws_go s = (w, ws) ->
  (forall c, In c (list_ascii_of_string w) -> is_space c = false) /\
  Forall (fun x => x <> "" /\ forall c, In c (list_ascii_of_string x) -> is_space c = false) ws.
Proof.
  induction s as [|c s IH]; intros w ws H; simpl in H.
  - injection H as <- <-. simpl. split; [tauto | constructor].
  - destruct (ws_go s) as [w' ws'] eqn:Hs. destruct (IH _ _ eq_refl) as [Hw' Hws'].
    destruct (is_space c) eqn:E; injection H as <- <-.
    + split; [simpl; tauto|].
      destruct (String.eqb w' "") eqn:Ew; [exact Hws'|].
      constructor; [|exact Hws']. apply String.eqb_neq in Ew. auto.
    + split; [|exact Hws']. simpl. intros d [<-|Hd]; auto.
Qed.

Lemma split_ws_words s :
  Forall (fun x => x <> "" /\ forall c, In c (list_ascii_of_string x) -> is_space c = false)
    (split_ws s).
Proof.
  unfold split_ws. destruct (ws_go s) as [w ws] eqn:H.
  destruct (ws_go_words s w ws H) as [Hw Hws].
  destruct (String.eqb w "") eqn:E; [exact Hws|].
  constructor; [|exact Hws]. apply String.eqb_neq in E. auto.
Qed.

Lemma ws_go_witness s : forall w ws, ws_go s = (w, ws) ->
  (exists c, In c (list_ascii_of_string s) /\ is_space c = false) ->
  w <> "" \/ ws <> [].
Proof.
  induction s as [|c s IH]; intros w ws H (d & Hd & Hs); simpl in Hd; [contradiction|].
  simpl in H. destruct (ws_go s) as [w' ws'] eqn:Hg.
  destruct (is_space c) eqn:E; injection H as <- <-.
  - destruct Hd as [->|Hd]; [congruence|].
    right. destruct (IH _ _ eq_refl) as [Hw|Hw]; [eauto| |];
      destruct (String.eqb w' "") eqn:Ew; try discriminate.
    + apply String.eqb_eq in Ew. contradiction.
    + exact Hw.
  - left. discriminate.
Qed.

Lemma split_ws_nonempty s :
  (exists c, In c (list_ascii_of_string s) /\ is_space c = false) -> split_ws s <> [].
Proof.
  intros Hc. unfold split_ws. destruct (ws_go s) as [w ws] eqn:H.
  destruct (String.eqb w "") eqn:E; [|discriminate].
  apply String.eqb_eq in E. destruct (ws_go_witness s w ws H Hc); [contradiction | exact H0].
Qed.

Lemma ws_go_word x :
  (forall c, In c (list_ascii_of_string x) -> is_space c = false) -> ws_go x = (x, []).
Proof.
  induction x as [|c x IH]; simpl; intros H; [reflexivity|].
  rewrite IH by auto. now rewrite (H c (or_introl eq_refl)).
Qed.

Lemma prefix_space_false d sep c x :
  c <> d -> String.prefix (String d sep) (String c x) = false.
Proof. intros Hc. cbn [String.prefix]. destruct (ascii_dec d c); [congruence | reflexivity]. Qed.

Lemma split_go_cons f sep c s :
  split_go (S f) sep (String c s) =
  if String.prefix sep (String c s) then
    EmptyString :: split_go f sep (str_drop (String.length sep) (String c s))
  else
    match split_go f sep s with
    | [] => [String c EmptyString]
    | w :: ws => String c w :: ws
    end.
Proof. reflexivity. Qed.

(** A string without whitespace is not cut by a separator that starts with
    a whitespace character. *)
Lemma split_go_word f d sep x :
  is_space d = true ->
  (forall c, In c (list_ascii_of_string x) -> is_space c = false) ->
  split_go (S f) (String d sep) x = [x].
Proof.
  intros Hd. revert x. induction f as [|f IH]; intros [|c x] H; try reflexivity;
    assert (Hc : c <> d) by
      (intros ->; specialize (H d (or_introl eq_refl)); congruence);
    rewrite split_go_cons, (prefix_space_false d sep c x Hc); [reflexivity|].
  rewrite (IH x) by (intros e He; apply H; now right). reflexivity.
Qed.

Lemma py_index_In l i x : py_index l i = Some x -> In x l.
Proof.
  unfold py_index. destruct (0 <=? i)%Z; [apply nth_error_In|].
  destruct (_ <=? i)%Z; [apply nth_error_In | discriminate].
Qed.

(** *** [parse_tax_ids] *)

Lemma py_index_first l : l <> [] ->
  exists x, py_index l 0 = Some x /\ nth_error l 0 = Some x.
Proof. destruct l as [|x l]; [contradiction|]. intros _. exists x. split; reflexivity. Qed.

Lemma py_index_last l : l <> [] -> exists x, py_index l (-1) = Some x.
Proof.
  intros H. unfold py_index. simpl.
  assert (Hl : length l <> 0) by (destruct l; [contradiction | discriminate]).
  assert (E : (- Z.of_nat (length l) <=? -1)%Z = true) by (apply Z.leb_le; lia).
  rewrite E. destruct (nth_error l (Z.to_nat (Z.of_nat (length l) + -1))) eqn:N.
  - eauto.
  - apply nth_error_None in N. lia.
Qed.

(** The fields [parse_line] indexes into. *)
Definition fields_of (sep : option string) (line : string) : list string :=
  match sep with
  | Some s => if String.eqb s "" then split_ws line else py_split s line
  | None => split_ws line
  end.

Lemma parse_line_unfold sep indx line :
  parse_line sep indx line =
  if String.prefix "#" line then Ok None else
  if String.eqb (rstrip line) "" then Ok None else
  match py_index (fields_of sep (rstrip line)) indx with
  | None => Err IndexError
  | Some tax_id => if String.eqb tax_id "" then Ok None else Ok (Some tax_id)
  end.
Proof. reflexivity. Qed.

Lemma parse_line_some sep indx line x :
  parse_line sep indx line = Ok (Some x) ->
  x <> "" /\ In x (fields_of sep (rstrip line)).
Proof.
  rewrite parse_line_unfold.
  destruct (String.prefix "#" line); [discriminate|].
  destruct (String.eqb (rstrip line) ""); [discriminate|].
  destruct (py_index _ indx) as [y|] eqn:P; [|discriminate].
  destruct (String.eqb y "") eqn:E; [discriminate|]. intros [= <-].
  split; [now apply String.eqb_neq | exact (py_index_In _ _ _ P)].
Qed.

Lemma parse_line_err sep indx line e :
  parse_line sep indx line = Err e -> e = IndexError.
Proof.
  rewrite parse_line_unfold.
  destruct (String.prefix "#" line); [discriminate|].
  destruct (String.eqb (rstrip line) ""); [discriminate|].
  destruct (py_index _ indx) as [y|]; [|congruence].
  destruct (String.eqb y ""); discriminate.
Qed.

Lemma fields_of_nonempty sep line : line <> "" -> rstrip line = line ->
  fields_of sep line <> [].
Proof.
  intros Hne Hr. assert (Hw : exists c, In c (list_ascii_of_string line) /\ is_space c = false).
  { rewrite <- Hr. apply rstrip_witness. now rewrite Hr. }
  destruct sep as [s|]; simpl; [destruct (String.eqb s "")|];
    try (apply split_ws_nonempty; exact Hw). apply py_split_nonempty.
Qed.

Lemma parse_line_total sep indx line :
  (indx = 0%Z \/ indx = (-1)%Z) -> exists o, parse_line sep indx line = Ok o.
Proof.
  intros Hi. rewrite parse_line_unfold.
  destruct (String.prefix "#" line); [eauto|].
  destruct (String.eqb (rstrip line) "") eqn:E; [eauto|].
  apply String.eqb_neq in E.
  assert (Hf := fields_of_nonempty sep (rstrip line) E (rstrip_idem line)).
  assert (Hx : exists x, py_index (fields_of sep (rstrip line)) indx = Some x).
  { destruct Hi as [->| ->].
    - destruct (py_index_first _ Hf) as (x & Hx & _). eauto.
    - exact (py_index_last _ Hf). }
  destruct Hx as [x ->]. destruct (String.eqb x ""); eauto.
Qed.

Lemma parse_tax_ids_Forall (P : string -> Prop) sep indx :
  (forall line x, parse_line sep indx line = Ok (Some x) -> P x) ->
  forall lines ids, parse_tax_ids lines sep indx = Ok ids -> Forall P ids.
Proof.
  intros HP lines. induction lines as [|line lines IH]; intros ids; simpl.
  - intros [= <-]. constructor.
  - destruct (parse_line sep indx line) as [o|e] eqn:L; [|discriminate].
    destruct (parse_tax_ids lines sep indx) as [r|e]; [|discriminate].
    intros [= <-]. destruct o as [x|]; [constructor; eauto|]; apply IH; reflexivity.
Qed.

Lemma prefix_hash_app x y : x <> "" ->
  String.prefix "#" (x ++ y) = String.prefix "#" x.
Proof.
  destruct x as [|c x]; [contradiction|]. intros _. cbn [String.prefix append].
  destruct (ascii_dec "#" c); [destruct x, y; reflexivity | reflexivity].
Qed.

(** A separator that [parse_tax_ids] splits clean IDs with unchanged. *)
Definition ws_sep (sep : option string) : Prop :=
  match sep with
  | None => True
  | Some EmptyString => True
  | Some (String d _) => is_space d = true
  end.

Definition clean_id (x : string) : Prop :=
  x <> "" /\ String.prefix "#" x = false /\
  (forall c, In c (list_ascii_of_string x) -> is_space c = false).

Lemma parse_line_clean sep x : ws_sep sep -> clean_id x ->
  parse_line sep 0 (x ++ String "010"%char EmptyString) = Ok (Some x).
Proof.
  intros Hs (Hne & Hh & Hw). rewrite parse_line_unfold, prefix_hash_app, Hh by exact Hne.
  rewrite (rstrip_line x Hw).
  assert (E : String.eqb x "" = false) by now apply String.eqb_neq.
  rewrite E.
  assert (F : fields_of sep x = [x]).
  { assert (Hws : split_ws x = [x]) by (unfold split_ws; now rewrite ws_go_word, E).
    destruct sep as [[|d s]|]; simpl in *; try exact Hws.
    apply split_go_word; assumption. }
  rewrite F. simpl. now rewrite E.
Qed.

Lemma parse_line_lead s line :
  s <> "" -> String.prefix s (rstrip line) = true ->
  parse_line (Some s) 0 line = Ok None.
Proof.
  intros Hs Hp. rewrite parse_line_unfold.
  destruct (String.prefix "#" line); [reflexivity|].
  destruct (rstrip line) as [|c l] eqn:R; [reflexivity|]. simpl String.eqb at 1.
  unfold fields_of. assert (E : String.eqb s "" = false) by now apply String.eqb_neq.
  rewrite E. unfold py_split. rewrite split_go_cons, Hp. reflexivity.
Qed.

End UtilsProofs.

(** ** Proofs about the rest of the fast variant *)
Module FastMoreProofs.
Import Fast FastProofs AnytreeProofs.

Lemma reparent_fold_eq L : forall ch p,
  lookup_list (fold_left reparent_step L ch) p =
  (lookup_list ch p ++
   map tax_id (filter (fun n => String.eqb (parent_tax_id n) p) (map snd L)))%list.
Proof.
  induction L as [|kv L IH]; intros ch p; simpl; [now rewrite app_nil_r|].
  rewrite IH, lookup_reparent_step, String.eqb_sym.
  destruct (String.eqb (parent_tax_id (snd kv)) p); simpl;
    [now rewrite <- app_assoc | reflexivity].
Qed.

Lemma In_set {V} k (v : V) d a b :
  In (a, b) (PyDict.set k v d) -> (a = k /\ b = v) \/ In (a, b) d.
Proof.
  induction d as [|[k' v'] d IH]; simpl.
  - intros [[= <- <-]|[]]. now left.
  - destruct (String.eqb k k') eqn:E.
    + apply String.eqb_eq in E. subst k'. intros [[= <- <-]|H]; [now left | auto].
    + intros [H|H]; [now right; left | destruct (IH H); auto].
Qed.

Lemma In_get {V} k (v : V) d :
  NoDup (PyDict.keys d) -> In (k, v) d -> PyDict.get k d = Some v.
Proof.
  induction d as [|[k' v'] d IH]; simpl; [intros _ []|].
  intros Hnd. inversion Hnd as [|? ? Hn Hnd']; subst.
  destruct (String.eqb k k') eqn:E.
  - apply String.eqb_eq in E. subst k'. intros [[= <-]|H]; [reflexivity|].
    exfalso. apply Hn. unfold PyDict.keys. change k with (fst (k, v)). now apply in_map.
  - intros [[= -> _]|H]; [now rewrite String.eqb_refl in E | now apply IH].
Qed.

Lemma In_mem {V} k (v : V) d : In (k, v) d -> PyDict.mem k d = true.
Proof.
  intros H. apply mem_In_keys. unfold PyDict.keys. change k with (fst (k, v)).
  now apply in_map.
Qed.

(** The entries of the node table of a built tree. *)
Definition node_ok (k : string) (n : node) : Prop :=
  tax_id n = k /\ ~ In " "%char (list_ascii_of_string (rank n)) /\
  ~ In "-"%char (list_ascii_of_string (rank n)).

Lemma read_nodes_inv lines : forall acc ns,
  read_nodes lines acc = Ok ns ->
  NoDup (PyDict.keys acc) -> (forall k n, In (k, n) acc -> node_ok k n) ->
  NoDup (PyDict.keys ns) /\ (forall k n, In (k, n) ns -> node_ok k n).
Proof.
  induction lines as [|fields rest IH]; intros acc ns H Hnd Hok; simpl in H.
  - injection H as <-. auto.
  - destruct (read_node fields) as [n|e] eqn:Hn; [|discriminate].
    apply (IH _ _ H); [now apply nodup_keys_set|].
    intros k m Hkm. apply In_set in Hkm as [[-> ->]|Hkm]; [|now apply Hok].
    unfold read_node in Hn.
    destruct (nth_error fields 0) as [a|], (nth_error fields 1) as [b|],
      (nth_error fields 2) as [c|]; try discriminate.
    injection Hn as <-. split; [reflexivity|]. apply UtilsProofs.label_to_id_chars.
Qed.

Lemma build_nodes lines t :
  build_tree lines = Ok t ->
  NoDup (PyDict.keys (nodes t)) /\ (forall k n, In (k, n) (nodes t) -> node_ok k n).
Proof.
  unfold build_tree. destruct (read_nodes lines []) as [ns|e] eqn:H; [|discriminate].
  intros [= <-]. simpl. apply (read_nodes_inv lines [] ns H); [constructor | intros k n []].
Qed.

Lemma build_get lines t k :
  build_tree lines = Ok t -> PyDict.get k (nodes t) = last_decl k lines.
Proof.
  unfold build_tree. destruct (read_nodes lines []) as [ns|e] eqn:H; [|discriminate].
  intros [= <-]. simpl. rewrite (read_nodes_last lines [] ns H k).
  now destruct (last_decl k lines).
Qed.

(** The ids of the children lists of a built tree are keys of its node
    table, with the parent they are listed under. *)
Lemma build_child_node lines t p c :
  build_tree lines = Ok t -> In c (lookup_list (children t) p) ->
  exists n, PyDict.get c (nodes t) = Some n /\ parent_tax_id n = p.
Proof.
  intros Hb Hc. destruct (build_nodes lines t Hb) as [Hnd Hok].
  apply (build_children lines t Hb) in Hc as (k & n & Hkn & Hp & Hx).
  destruct (Hok k n Hkn) as [Hk _]. subst c. rewrite Hk.
  exists n. split; [|exact Hp]. apply In_get; [exact Hnd|]. exact Hkn.
Qed.

Lemma reach_listed ch c y s :
  In c (lookup_list ch s) -> reach ch c y -> exists p, In y (lookup_list ch p).
Proof.
  intros Hc Hr. revert s Hc. induction Hr as [x|x c' y Hc' Hr IH]; intros s Hs; eauto.
Qed.

Lemma filter_tree_get t S k :
  PyDict.get k (nodes (filter_tree t S)) =
  if list_mem k S then PyDict.get k (nodes t) else None.
Proof.
  unfold filter_tree, tree_reparenting. cbn [nodes].
  rewrite get_keep_fold, list_mem_filter. unfold validate_by_taxid, PyDict.mem.
  destruct (list_mem k S); simpl; [|reflexivity].
  destruct (PyDict.get k (nodes t)); reflexivity.
Qed.

Lemma filter_tree_children t S p c :
  In c (lookup_list (children (filter_tree t S)) p) <-> is_child (filter_tree t S) p c.
Proof.
  unfold filter_tree, tree_reparenting, is_child. cbn [nodes children].
  rewrite lookup_reparent_fold. unfold lookup_list at 1; simpl.
  split; [intros [[]|H]; exact H | intros H; now right].
Qed.

End FastMoreProofs.

(** ** Proofs about the [_fast] functions of tree.py *)
Module TreeFastProofs.
Import Fast TreeFast FastProofs FastMoreProofs.

(** [tree["nodes"][y]["rank"] == search_rank] *)
Definition has_rank (ns : dict node) (rk y : string) : Prop :=
  exists n, PyDict.get y ns = Some n /\ rank n = rk.

Definition keyed (ns : dict node) (ts : list string) : Prop :=
  forall x, In x ts -> PyDict.mem x ns = true.

Lemma ranked_spec ns rk ts : keyed ns ts ->
  exists R, ranked ns rk ts = Ok R /\ forall y, In y R <-> In y ts /\ has_rank ns rk y.
Proof.
  induction ts as [|x ts IH]; intros Hk; simpl.
  - exists []. split; [reflexivity|]. intros y; simpl; tauto.
  - assert (Hx := Hk x (or_introl eq_refl)). unfold PyDict.mem in Hx.
    destruct (PyDict.get x ns) as [n|] eqn:Hn; [|discriminate].
    destruct IH as (R & -> & HR); [intros z Hz; apply Hk; now right|].
    exists (if String.eqb (rank n) rk then x :: R else R). split; [reflexivity|].
    intros y. destruct (String.eqb (rank n) rk) eqn:E; simpl; rewrite HR.
    + apply String.eqb_eq in E. split.
      * intros [<-|[H1 H2]]; [split; [now left | now exists n] | auto].
      * intros [[<-|H1] H2]; auto.
    + apply String.eqb_neq in E. split; [intros [H1 H2]; auto|].
      intros [[<-|H1] H2]; [|auto]. exfalso. destruct H2 as (m & Hm & Hr). congruence.
Qed.

Lemma rsearch_loop_keys fuel ns rk ch : forall ids acc r,
  rsearch_loop fuel ns rk ch ids acc = (r, None) ->
  forall s, In s ids -> PyDict.mem s ch = true.
Proof.
  induction ids as [|x ids IH]; intros acc r H s Hs; [destruct Hs|]. simpl in H.
  destruct (PyDict.get x ch) as [l|] eqn:Hx; [|discriminate].
  destruct (rget_leaves fuel ns rk ch l acc) as [acc' [e|]]; [discriminate|].
  destruct Hs as [<-|Hs]; [unfold PyDict.mem; now rewrite Hx | exact (IH _ _ H s Hs)].
Qed.

Section Search.
Variables (ns : dict node) (rk : string) (ch : dict (list string)).
Hypothesis Hch : forall p c, In c (lookup_list ch p) -> PyDict.mem c ns = true.

Lemma lookup_keyed x l : PyDict.get x ch = Some l -> keyed ns l.
Proof. intros Hx c Hc. apply (Hch x). unfold lookup_list. now rewrite Hx. Qed.

Lemma rleaves_loop_err rec :
  (forall ts acc r e, keyed ns ts -> rec ts acc = (r, Some e) -> e = RecursionError) ->
  forall ts acc r e, rleaves_loop rec ch ts acc = (r, Some e) -> e = RecursionError.
Proof.
  intros Hrec ts. induction ts as [|x ts IH]; intros acc r e H; simpl in H; [discriminate|].
  destruct (PyDict.get x ch) as [l|] eqn:Hx; [|exact (IH _ _ _ H)].
  destruct (rec l acc) as [acc' [e'|]] eqn:Hr; [|exact (IH _ _ _ H)].
  pose proof (Hrec _ _ _ _ (lookup_keyed x l Hx) Hr) as ->.
  now injection H as _ <-.
Qed.

Lemma rget_leaves_err fuel : forall ts acc r e, keyed ns ts ->
  rget_leaves fuel ns rk ch ts acc = (r, Some e) -> e = RecursionError.
Proof.
  induction fuel as [|f IH]; intros ts acc r e Hts H; simpl in H.
  - now injection H as _ <-.
  - destruct (ranked_spec ns rk ts Hts) as (R & HR & _). rewrite HR in H.
    exact (rleaves_loop_err _ IH _ _ _ _ H).
Qed.

Lemma rleaves_loop_spec rec :
  (forall ts acc r, keyed ns ts -> rec ts acc = (r, None) ->
     forall y, In y r <-> In y acc \/
       exists t, In t ts /\ reach ch t y /\ has_rank ns rk y) ->
  (forall ts acc r e, keyed ns ts -> rec ts acc = (r, Some e) -> e = RecursionError) ->
  forall ts acc r, rleaves_loop rec ch ts acc = (r, None) ->
  forall y, In y r <-> In y acc \/
    exists t c, In t ts /\ In c (lookup_list ch t) /\ reach ch c y /\ has_rank ns rk y.
Proof.
  intros Hrec Herr ts. induction ts as [|x ts IH]; intros acc r Hr y; simpl in Hr.
  - injection Hr as <-. split; [now left|].
    intros [H|(t & c & [] & _)]. exact H.
  - destruct (PyDict.get x ch) as [l|] eqn:Hx.
    + pose proof (lookup_keyed x l Hx) as Hl.
      destruct (rec l acc) as [acc' [e|]] eqn:Hacc.
      * rewrite (Herr _ _ _ _ Hl Hacc) in Hr. discriminate.
      * rewrite (IH acc' r Hr y), (Hrec l acc acc' Hl Hacc y).
        unfold lookup_list at 2. split.
        -- intros [[H|(c & Hc & Hcy & Hp)]|(t & c & Ht & Hc & Hcy & Hp)].
           ++ now left.
           ++ right. exists x, c. rewrite Hx. simpl; auto.
           ++ right. exists t, c. simpl; auto.
        -- intros [H|(t & c & [<-|Ht] & Hc & Hcy & Hp)].
           ++ now do 2 left.
           ++ left. right. exists c. rewrite Hx in Hc. auto.
           ++ right. exists t, c. auto.
    + rewrite (IH acc r Hr y). split.
      * intros [H|(t & c & Ht & Hc & Hcy & Hp)]; [now left|].
        right. exists t, c. simpl; auto.
      * intros [H|(t & c & [<-|Ht] & Hc & Hcy & Hp)]; [now left| |].
        -- unfold lookup_list in Hc. rewrite Hx in Hc. destruct Hc.
        -- right. exists t, c. auto.
Qed.

Lemma rget_leaves_spec fuel : forall ts acc r, keyed ns ts ->
  rget_leaves fuel ns rk ch ts acc = (r, None) ->
  forall y, In y r <-> In y acc \/
    exists t, In t ts /\ reach ch t y /\ has_rank ns rk y.
Proof.
  induction fuel as [|f IH]; intros ts acc r Hts Hr y; simpl in Hr; [discriminate|].
  destruct (ranked_spec ns rk ts Hts) as (R & HR & HRy). rewrite HR in Hr.
  rewrite (rleaves_loop_spec _ IH (rget_leaves_err f) ts _ r Hr y), in_app_iff, HRy.
  split.
  - intros [[H|[H Hp]]|(t & c & Ht & Hc & Hcy & Hp)].
    + now left.
    + right. exists y. split; [exact H | split; [constructor | exact Hp]].
    + right. exists t. split; [exact Ht|]. split; [econstructor; eauto | exact Hp].
  - intros [H|(t & Ht & Hty & Hp)]; [now do 2 left|].
    inversion Hty as [x Hx|x c y' Hc Hcy]; subst.
    + left. right. auto.
    + right. exists t, c. auto.
Qed.

Lemma rsearch_loop_spec fuel : forall ids acc r,
  rsearch_loop fuel ns rk ch ids acc = (r, None) ->
  forall y, In y r <-> In y acc \/
    exists s c, In s ids /\ In c (lookup_list ch s) /\ reach ch c y /\ has_rank ns rk y.
Proof.
  intros ids. induction ids as [|s ids IH]; intros acc r Hr y; simpl in Hr.
  - injection Hr as <-. split; [now left|].
    intros [H|(t & c & [] & _)]. exact H.
  - destruct (PyDict.get s ch) as [l|] eqn:Hs; [|discriminate].
    destruct (rget_leaves fuel ns rk ch l acc) as [acc' [e|]] eqn:Hg; [discriminate|].
    rewrite (IH acc' r Hr y), (rget_leaves_spec fuel l acc acc' (lookup_keyed s l Hs) Hg y).
    split.
    + intros [[H|(c & Hc & Hcy & Hp)]|(t & c & Ht & Hc & Hcy & Hp)].
      * now left.
      * right. exists s, c. unfold lookup_list. rewrite Hs. simpl; auto.
      * right. exists t, c. simpl; auto.
    + intros [H|(t & c & [<-|Ht] & Hc & Hcy & Hp)].
      * now do 2 left.
      * left. right. exists c. unfold lookup_list in Hc. rewrite Hs in Hc. auto.
      * right. exists t, c. auto.
Qed.

Lemma rsearch_loop_err fuel : forall ids acc r e,
  rsearch_loop fuel ns rk ch ids acc = (r, Some e) ->
  e = RecursionError \/ exists x, e = KeyError x /\ In x ids /\ PyDict.get x ch = None.
Proof.
  intros ids. induction ids as [|s ids IH]; intros acc r e H; simpl in H; [discriminate|].
  destruct (PyDict.get s ch) as [l|] eqn:Hs.
  - destruct (rget_leaves fuel ns rk ch l acc) as [acc' [e'|]] eqn:Hg.
    + injection H as _ <-. left. exact (rget_leaves_err fuel l acc acc' e' (lookup_keyed s l Hs) Hg).
    + destruct (IH _ _ _ H) as [He|(x & He & Hx & Hn)]; [now left|].
      right. exists x. repeat split; [exact He | now right | exact Hn].
  - injection H as _ <-. right. exists s. repeat split; [now left | exact Hs].
Qed.

End Search.

Lemma build_keyed lines t :
  build_tree lines = Ok t ->
  forall p c, In c (lookup_list (children t) p) -> PyDict.mem c (nodes t) = true.
Proof.
  intros Hb p c Hc. destruct (build_child_node lines t p c Hb Hc) as (n & Hn & _).
  unfold PyDict.mem. now rewrite Hn.
Qed.

End TreeFastProofs.

(** ** Proofs about the rest of tree.py *)
Module AnytreeMoreProofs.
Import Anytree FastProofs AnytreeProofs.

Lemma in_tree_mem t x : in_tree t x = true -> PyDict.mem x (an_nodes t) = true.
Proof. unfold in_tree. now rewrite andb_true_iff. Qed.

Lemma list_mem_names t x :
  list_mem x (filter (in_tree t) (PyDict.keys (an_nodes t))) = in_tree t x.
Proof.
  rewrite list_mem_filter. destruct (in_tree t x) eqn:E; [|apply andb_false_r].
  rewrite andb_true_r. apply list_mem_In, mem_In_keys, in_tree_mem, E.
Qed.

Lemma validate_tree_forallb t S F :
  validate_tree t S F = forallb (fun x => list_mem x F || in_tree t x) S.
Proof.
  unfold validate_tree. induction S as [|x S IH]; simpl; [reflexivity|].
  rewrite list_mem_names.
  destruct (list_mem x F || in_tree t x); simpl; [exact IH | reflexivity].
Qed.

Lemma path_names_missing t S x :
  In x S -> in_tree t x = false -> path_names t S = Err AttributeError.
Proof.
  induction S as [|s S IH]; intros Hx Hn; [destruct Hx|]. simpl. unfold find.
  destruct (in_tree t s) eqn:E; [|reflexivity].
  destruct Hx as [->|Hx]; [congruence|]. now rewrite (IH Hx Hn).
Qed.

Lemma leaves_of_rank_missing t rk S x :
  In x S -> in_tree t x = false -> leaves_of_rank t rk S = Err AttributeError.
Proof.
  induction S as [|s S IH]; intros Hx Hn; [destruct Hx|]. simpl. unfold find.
  destruct (in_tree t s) eqn:E; [|reflexivity].
  destruct Hx as [->|Hx]; [congruence|]. now rewrite (IH Hx Hn).
Qed.

Lemma leaves_of_rank_err t rk S e :
  leaves_of_rank t rk S = Err e ->
  e = AttributeError /\ exists x, In x S /\ in_tree t x = false.
Proof.
  induction S as [|s S IH]; simpl; [discriminate|]. unfold find.
  destruct (in_tree t s) eqn:E.
  - destruct (leaves_of_rank t rk S) as [l|e'] eqn:L; [discriminate|].
    intros [= <-]. destruct (IH eq_refl) as [He (x & Hx & Hn)].
    split; [exact He|]. exists x. split; [now right | exact Hn].
  - intros [= <-]. split; [reflexivity|]. exists s. split; [now left | exact E].
Qed.

Lemma dict_select_none (c : string -> bool) (d : dict anode) :
  (forall k, c k = false) -> dict_select c d = [].
Proof.
  intros Hc. unfold dict_select.
  assert (H : forall acc, fold_left (fun acc kv =>
      if c (fst kv) then PyDict.set (fst kv) (snd kv) acc else acc) d acc = acc).
  { induction d as [|kv d IH]; intros acc; simpl; [reflexivity|]. now rewrite Hc. }
  apply H.
Qed.

End AnytreeMoreProofs.

(** ** Further properties of the code *)
Module Extras.
Import Utils UtilsProofs.

(** X1.  [label_to_id] leaves no space and no hyphen, keeps the length of
    its input, and changes nothing on its own output. *)
Theorem label_to_id_normal s :
  ~ In " "%char (list_ascii_of_string (label_to_id s)) /\
  ~ In "-"%char (list_ascii_of_string (label_to_id s)) /\
  String.length (label_to_id s) = String.length s /\
  label_to_id (label_to_id s) = label_to_id s.
Proof.
  destruct (label_to_id_chars s) as [H1 H2].
  split; [exact H1|]. split; [exact H2|]. split; [apply label_to_id_length | apply label_to_id_idem].
Qed.

(** X2.  [escape_literal] loses nothing (two texts with the same escaped
    form are equal), and it changes a text exactly when the text holds a
    double quote. *)
Theorem escape_literal_injective :
  (forall s1 s2, escape_literal s1 = escape_literal s2 -> s1 = s2) /\
  (forall s, escape_literal s = s <-> ~ In "034"%char (list_ascii_of_string s)).
Proof. split; [exact escape_inj | exact escape_fixed]. Qed.

(** X3.  [split_line] cuts a line into at least one field: the raw fields
    joined with the separator ["\t|"] give the line back, and the fields
    returned are the raw ones stripped, so stripping them again changes
    nothing. *)
Theorem split_line_fields line :
  exists raw, raw <> [] /\ String.concat dmp_sep raw = line /\
    split_line line = map strip raw /\
    Forall (fun f => strip f = f) (split_line line).
Proof.
  exists (py_split dmp_sep line). split; [apply py_split_nonempty|].
  split; [apply py_split_concat; discriminate|]. split; [reflexivity|].
  unfold split_line. apply Forall_forall. intros f Hf.
  apply in_map_iff in Hf as (x & <- & _). apply strip_idem.
Qed.

(** X4.  Every TaxID [parse_tax_ids] returns is non-empty; with no
    separator (or an empty one), none holds a whitespace character. *)
Theorem parse_tax_ids_nonempty lines sep indx ids :
  parse_tax_ids lines sep indx = Ok ids ->
  Forall (fun x => x <> "") ids /\
  ((sep = None \/ sep = Some "") ->
   Forall (fun x => forall c, In c (list_ascii_of_string x) -> is_space c = false) ids).
Proof.
  intros H. split.
  - apply (parse_tax_ids_Forall _ sep indx) with (lines := lines); [|exact H].
    intros line x Hx. exact (proj1 (parse_line_some _ _ _ _ Hx)).
  - intros Hs. apply (parse_tax_ids_Forall _ sep indx) with (lines := lines); [|exact H].
    intros line x Hx. apply parse_line_some in Hx as [_ Hx].
    assert (Hw : fields_of sep (rstrip line) = split_ws (rstrip line))
      by (destruct Hs as [-> | ->]; reflexivity).
    rewrite Hw in Hx. pose proof (split_ws_words (rstrip line)) as Hf.
    rewrite Forall_forall in Hf. exact (proj2 (Hf x Hx)).
Qed.

Lemma parse_tax_ids_nonempty_witness :
  parse_tax_ids ["9606 Homo sapiens" ++ String "010" EmptyString] None 0 = Ok ["9606"] /\
  (Forall (fun x => x <> "") ["9606"] /\
   ((@None string = None \/ @None string = Some "") ->
    Forall (fun x => forall c, In c (list_ascii_of_string x) -> is_space c = false)
      ["9606"])).
Proof.
  split; [reflexivity|].
  apply (parse_tax_ids_nonempty ["9606 Homo sapiens" ++ String "010" EmptyString] None 0).
  reflexivity.
Defined.

(** X5.  With the default [indx = 0] and a non-empty separator, a line
    that starts with the separator (after [rstrip]) adds no TaxID: its
    field 0 is empty. *)
Theorem parse_tax_ids_leading_separator s line rest :
  s <> "" -> String.prefix s (rstrip line) = true ->
  parse_tax_ids (line :: rest) (Some s) 0 = parse_tax_ids rest (Some s) 0.
Proof.
  intros Hs Hp. cbn [parse_tax_ids]. rewrite (parse_line_lead s line Hs Hp).
  now destruct (parse_tax_ids rest (Some s) 0).
Qed.

Lemma parse_tax_ids_leading_separator_witness :
  " " <> "" /\ String.prefix " " (rstrip (" 9606" ++ String "010" EmptyString)) = true /\
  parse_tax_ids [" 9606" ++ String "010" EmptyString; "10090" ++ String "010" EmptyString]
    (Some " ") 0 = Ok ["10090"].
Proof.
  split; [discriminate|]. split; [reflexivity|].
  rewrite (parse_tax_ids_leading_separator " " _ _); [reflexivity | discriminate | reflexivity].
Defined.

(** X6.  A file of TaxIDs written one per line is read back unchanged,
    for IDs that are non-empty, hold no whitespace and do not start with
    ["#"], with [indx = 0] and no separator or one starting with a
    whitespace character (such as the default [" "]). *)
Theorem parse_tax_ids_roundtrip sep ids :
  ws_sep sep -> Forall clean_id ids ->
  parse_tax_ids (map (fun x => x ++ String "010" EmptyString) ids) sep 0 = Ok ids.
Proof.
  intros Hs Hids. induction Hids as [|x ids Hx Hids IH]; [reflexivity|].
  cbn [map parse_tax_ids]. rewrite (parse_line_clean sep x Hs Hx), IH. reflexivity.
Qed.

Lemma parse_tax_ids_roundtrip_witness :
  (ws_sep (Some " ") /\ Forall clean_id ["9606"; "10090"]) /\
  parse_tax_ids (map (fun x => x ++ String "010" EmptyString) ["9606"; "10090"])
    (Some " ") 0 = Ok ["9606"; "10090"].
Proof.
  assert (H : ws_sep (Some " ") /\ Forall clean_id ["9606"; "10090"]).
  { split; [reflexivity|].
    repeat constructor; try discriminate;
      intros c Hc; simpl in Hc; repeat destruct Hc as [<-|Hc]; try reflexivity; destruct Hc. }
  split; [exact H|]. exact (parse_tax_ids_roundtrip _ _ (proj1 H) (proj2 H)).
Defined.

Lemma parse_tax_ids_total lines sep indx :
  (indx = 0%Z \/ indx = (-1)%Z) -> exists ids, parse_tax_ids lines sep indx = Ok ids.
Proof.
  intros Hi. induction lines as [|line lines IH]; [eexists; reflexivity|].
  cbn [parse_tax_ids]. destruct (parse_line_total sep indx line Hi) as [o ->].
  destruct IH as [ids ->]. eauto.
Qed.

(** X7.  Once the lines of the file are read, the loop of [parse_tax_ids]
    raises no [IndexError] with [indx] 0 or -1: every line it does not skip
    has a first and a last field. *)
Theorem parse_tax_ids_first_last lines sep :
  (exists ids, parse_tax_ids lines sep 0 = Ok ids) /\
  (exists ids, parse_tax_ids lines sep (-1) = Ok ids).
Proof. split; apply parse_tax_ids_total; [left | right]; reflexivity. Qed.

(** X8.  Reading two lists of lines one after the other gives the TaxIDs
    of the first followed by those of the second, or the first error. *)
Theorem parse_tax_ids_app a b sep indx :
  parse_tax_ids (a ++ b) sep indx =
  match parse_tax_ids a sep indx with
  | Err e => Err e
  | Ok x => match parse_tax_ids b sep indx with
            | Err e => Err e
            | Ok y => Ok (x ++ y)%list
            end
  end.
Proof.
  induction a as [|line a IH]; simpl.
  - now destruct (parse_tax_ids b sep indx).
  - rewrite IH. destruct (parse_line sep indx line) as [o|e]; [|reflexivity].
    destruct (parse_tax_ids a sep indx) as [x|e]; [|reflexivity].
    destruct (parse_tax_ids b sep indx) as [y|e]; [|reflexivity].
    destruct o; reflexivity.
Qed.

End Extras.

Module FastExtras.
Import Fast FastProofs FastMoreProofs FastFind Mock.

(** X9.  [tree_reparenting] leaves the node table alone and appends to the
    children list of every [p] (none when [p] is not a key) the ids of the
    nodes whose parent is [p], in the order of the node table. *)
Theorem tree_reparenting_appends t p :
  nodes (tree_reparenting t) = nodes t /\
  lookup_list (children (tree_reparenting t)) p =
  (lookup_list (children t) p ++
   map tax_id (filter (fun n => String.eqb (parent_tax_id n) p) (map snd (nodes t))))%list.
Proof. split; [reflexivity | apply reparent_fold_eq]. Qed.

(** X10.  In a tree built from a dump, the node table has no key twice,
    the node under key [k] has the id [k] and a rank with no space or
    hyphen, and every id in the children list of [p] is a key of the node
    table whose node has the parent [p]. *)
Theorem build_tree_well_formed lines t :
  build_tree lines = Ok t ->
  NoDup (PyDict.keys (nodes t)) /\
  (forall k n, In (k, n) (nodes t) ->
     tax_id n = k /\ ~ In " "%char (list_ascii_of_string (rank n)) /\
     ~ In "-"%char (list_ascii_of_string (rank n))) /\
  (forall p c, In c (lookup_list (children t) p) ->
     exists n, PyDict.get c (nodes t) = Some n /\ parent_tax_id n = p).
Proof.
  intros Hb. destruct (build_nodes lines t Hb) as [Hnd Hok].
  split; [exact Hnd|]. split; [exact Hok|].
  intros p c Hc. exact (build_child_node lines t p c Hb Hc).
Qed.

Lemma build_tree_well_formed_witness :
  build_tree mock_lines = Ok mock /\
  (NoDup (PyDict.keys (nodes mock)) /\
   (forall k n, In (k, n) (nodes mock) ->
      tax_id n = k /\ ~ In " "%char (list_ascii_of_string (rank n)) /\
      ~ In "-"%char (list_ascii_of_string (rank n))) /\
   (forall p c, In c (lookup_list (children mock) p) ->
      exists n, PyDict.get c (nodes mock) = Some n /\ parent_tax_id n = p)).
Proof.
  split; [reflexivity|]. apply (build_tree_well_formed mock_lines). reflexivity.
Defined.

(** X11.  [filter_tree] of tree_fast.py keeps, for every listed id that is
    a key of the node table, its node unchanged, and no other node; the
    children lists are rebuilt from the kept nodes only. *)
Theorem filter_tree_keeps_listed t S :
  (forall k, PyDict.get k (nodes (filter_tree t S)) =
             if list_mem k S then PyDict.get k (nodes t) else None) /\
  (forall p c, In c (lookup_list (children (filter_tree t S)) p) <->
               is_child (filter_tree t S) p c).
Proof. split; [apply filter_tree_get | apply filter_tree_children]. Qed.

(** X12.  Filtering a second time with the same ids changes nothing. *)
Theorem filter_tree_twice t S : filter_tree (filter_tree t S) S = filter_tree t S.
Proof. apply filter_tree_idem. Qed.

(** X13.  On a tree built from a dump, [TaxonResolverFast.find_by_taxid]
    returns the node of the last line declaring the id, and otherwise
    warns (with a logger) or exits with one fixed message; it never lets
    the [KeyError] of [find_by_taxid] out. *)
Theorem find_by_taxid_last_decl (lg : bool) lines t x :
  build_tree lines = Ok t ->
  resolver_find_by_taxid lg t x =
  match last_decl x lines with
  | Some n => Found n
  | None => if lg then FWarned find_message else FExited find_message
  end.
Proof.
  intros Hb. unfold resolver_find_by_taxid, validate_by_taxid, find_by_taxid, PyDict.mem.
  rewrite (build_get lines t x Hb). now destruct (last_decl x lines).
Qed.

Lemma find_by_taxid_last_decl_witness :
  build_tree dup_lines = Ok (match build_tree dup_lines with Ok t => t | Err _ => empty_tree end) /\
  resolver_find_by_taxid true
    (match build_tree dup_lines with Ok t => t | Err _ => empty_tree end) "4" =
  Found (mk_node "4" "3" "subspecies").
Proof.
  split; [reflexivity|].
  rewrite (find_by_taxid_last_decl true dup_lines); reflexivity.
Defined.

(** X14.  On a tree built from a dump, every id that
    [TaxonResolverFast.search] returns is a key of the node table: an id
    known only from the filter list is never returned. *)
Theorem search_returns_tree_ids (lg : bool) lines t S F r :
  build_tree lines = Ok t -> search lg t S F = Returned r ->
  forall y, In y r -> validate_by_taxid t y = true.
Proof.
  intros Hb Hs y Hy. apply search_returned in Hs as [_ Hs].
  apply search_taxids_members in Hs as (found & Hl & _ & Hr).
  apply Hr in Hy as [_ Hy].
  apply (search_loop_spec _ _ S [] found Hl y) in Hy as [[]|(s & c & _ & Hc & Hcy)].
  destruct (reach_listed _ c y s Hc Hcy) as [p Hp].
  destruct (build_child_node lines t p y Hb Hp) as (n & Hn & _).
  unfold validate_by_taxid, PyDict.mem. now rewrite Hn.
Qed.

Lemma search_returns_tree_ids_witness :
  (build_tree mock_lines = Ok mock /\
   search false mock ["2"] ["4"; "9"] = Returned ["4"]) /\
  (forall y, In y ["4"] -> validate_by_taxid mock y = true).
Proof.
  split; [split; reflexivity|].
  apply (search_returns_tree_ids false mock_lines mock ["2"] ["4"; "9"]); reflexivity.
Defined.

End FastExtras.

Module TreeExtras.
Import Fast TreeFast FastProofs FastMoreProofs TreeFastProofs Mock.

(** X15.  On a tree built by [build_tree_fast], a result of
    [search_tree_fast] has no duplicates and holds exactly the searched ids
    that are in the filter list, and the strict descendants of the searched
    ids that have the search rank; the filter list does not restrict the
    descendants. *)
Theorem search_tree_fast_members lines t S F rk r :
  build_tree_fast lines = Ok t -> search_tree_fast t S F rk = Ok r ->
  NoDup r /\
  forall y, In y r <->
    (In y S /\ In y F) \/ exists s, In s S /\ descendant t s y /\ has_rank (nodes t) rk y.
Proof.
  intros Hb Hs. unfold build_tree_fast in Hb.
  pose proof (build_keyed lines t Hb) as Hk. pose proof (build_children lines t Hb) as Hch.
  unfold search_tree_fast in Hs.
  destruct (rsearch_loop _ _ _ _ _ _) as [acc [e|]] eqn:H; [discriminate|].
  injection Hs as <-. unfold py_set. split; [apply NoDup_nodup|]. intros y.
  rewrite nodup_In, (rsearch_loop_spec _ rk _ Hk _ _ _ _ H y), filter_In, list_mem_In.
  split.
  - intros [H1|(s & c & Hs & Hc & Hcy & Hp)]; [now left|].
    right. exists s. split; [exact Hs|]. split; [|exact Hp].
    apply (reach_descendant t Hch). eauto.
  - intros [H1|(s & Hs & Hd & Hp)]; [now left|].
    right. apply (reach_descendant t Hch) in Hd as (c & Hc & Hcy). exists s, c. auto.
Qed.

Lemma search_tree_fast_members_witness :
  (build_tree_fast mock_lines = Ok mock /\
   search_tree_fast mock ["2"] ["6"] "species" = Ok ["4"; "5"]) /\
  (NoDup ["4"; "5"] /\
   forall y, In y ["4"; "5"] <->
     (In y ["2"] /\ In y ["6"]) \/
     exists s, In s ["2"] /\ descendant mock s y /\ has_rank (nodes mock) "species" y).
Proof.
  split; [split; reflexivity|].
  apply (search_tree_fast_members mock_lines mock ["2"] ["6"] "species"); reflexivity.
Defined.

(** X16.  [search_tree_fast] returns a list only when every searched id
    has a children list: the lookup [tree["parents"][tax_id]] of a searched
    leaf (or of an id known only from the filter list) is not guarded and
    raises [KeyError]. *)
Theorem search_tree_fast_needs_children t S F rk r :
  search_tree_fast t S F rk = Ok r ->
  forall s, In s S -> PyDict.mem s (children t) = true.
Proof.
  unfold search_tree_fast.
  destruct (rsearch_loop _ _ _ _ _ _) as [acc [e|]] eqn:H; [discriminate|].
  intros _. exact (rsearch_loop_keys _ _ _ _ _ _ _ H).
Qed.

Lemma search_tree_fast_needs_children_witness :
  search_tree_fast mock ["2"] [] "species" = Ok ["4"; "5"] /\
  (forall s, In s ["2"] -> PyDict.mem s (children mock) = true).
Proof.
  split; [reflexivity|].
  apply (search_tree_fast_needs_children mock ["2"] [] "species" ["4"; "5"]).
  reflexivity.
Defined.

End TreeExtras.

Module AnytreeExtras.
Import Anytree FastProofs AnytreeProofs AnytreeMoreProofs Resolver Mock.

(** X17.  [validate_tree] is true exactly when every searched id is in the
    filter list or is a node of the tree. *)
Theorem validate_tree_iff t S F :
  validate_tree t S F = true <-> Forall (fun x => In x F \/ in_tree t x = true) S.
Proof.
  rewrite validate_tree_forallb, forallb_forall, Forall_forall.
  split; intros H x Hx; specialize (H x Hx).
  - apply orb_true_iff in H as [H|H]; [left; now apply list_mem_In | now right].
  - apply orb_true_iff. destruct H as [H|H]; [left; now apply list_mem_In | now right].
Qed.

(** X18.  [filter_tree] of tree.py fails when a listed id is not in the
    tree ([None.path] raises [AttributeError]), and fails with a [KeyError]
    on the root key when the list is empty (no node is kept). *)
Theorem filter_tree_failures t S :
  ((exists x, In x S /\ in_tree t x = false) -> filter_tree t S = Err AttributeError) /\
  filter_tree t [] = Err (KeyError (Anytree.root_key t)).
Proof.
  split.
  - intros (x & Hx & Hn). unfold filter_tree. now rewrite (path_names_missing t S x Hx Hn).
  - unfold filter_tree, taxon_nodes. simpl.
    rewrite dict_select_none; [reflexivity|]. intros k. apply andb_false_r.
Qed.

(** X19.  [search_tree] returns a list only when every searched id is a
    node of the tree: for a missing id, [find] gives [None] and
    [None.leaves] raises [AttributeError]. *)
Theorem search_tree_needs_nodes t S F rk r :
  search_tree t S F rk = Ok r -> forall x, In x S -> in_tree t x = true.
Proof.
  intros Hs x Hx. destruct (in_tree t x) eqn:Hn; [reflexivity|].
  unfold search_tree in Hs. rewrite (leaves_of_rank_missing t rk S x Hx Hn) in Hs.
  discriminate.
Qed.

Lemma search_tree_needs_nodes_witness :
  search_tree amock ["3"] [] "species" = Ok ["4"; "5"] /\
  (forall x, In x ["3"] -> in_tree amock x = true).
Proof.
  assert (H : search_tree amock ["3"] [] "species" = Ok ["4"; "5"])
    by (vm_compute; reflexivity).
  split; [exact H|]. exact (search_tree_needs_nodes amock ["3"] [] "species" _ H).
Defined.

(** X20.  In mode ["anytree"], a search with the default keyword arguments
    (those of cli.py) whose search file holds an id that is not in the tree
    never returns a list: it is refused when some searched id is neither in
    the tree nor in the filter file, and otherwise the validation passes
    and [search_tree] raises [AttributeError]. *)
Theorem resolver_search_missing_id r t sfile ffile S F x :
  mode_is r "anytree" = true -> tree r = AnyTree t ->
  read_files sfile ffile default_sep default_indx = Ok (S, F) ->
  In x S -> in_tree t x = false ->
  search r sfile ffile default_sep default_indx =
  if forallb (fun y => list_mem y F || in_tree t y) S then RRaised AttributeError
  else if truthy (logging r) then RWarned Fast.search_message
  else RExited Fast.search_message.
Proof.
  intros Hm Ht Hrd Hx Hn. unfold search, validate_tree_files, search_tree_files.
  rewrite Hm, Ht, Hrd. cbv beta iota zeta. rewrite validate_tree_forallb.
  destruct (forallb _ S); [|reflexivity].
  unfold search_tree. now rewrite (leaves_of_rank_missing t _ S x Hx Hn).
Qed.

Lemma resolver_search_missing_id_witness :
  (mode_is (mk_resolver (PyStr "anytree") LogCallable (AnyTree amock) "1" "species")
     "anytree" = true /\
   tree (mk_resolver (PyStr "anytree") LogCallable (AnyTree amock) "1" "species")
     = AnyTree amock /\
   read_files ["4"; "9"] (Some ["9"]) default_sep default_indx = Ok (["4"; "9"], ["9"]) /\
   In "9" ["4"; "9"] /\ in_tree amock "9" = false) /\
  search (mk_resolver (PyStr "anytree") LogCallable (AnyTree amock) "1" "species")
    ["4"; "9"] (Some ["9"]) default_sep default_indx = RRaised AttributeError.
Proof.
  assert (Hrd : read_files ["4"; "9"] (Some ["9"]) default_sep default_indx
                = Ok (["4"; "9"], ["9"])) by (vm_compute; reflexivity).
  assert (Hn : in_tree amock "9" = false) by (vm_compute; reflexivity).
  split; [split; [reflexivity | split; [reflexivity | split; [exact Hrd | split;
    [right; now left | exact Hn]]]]|].
  rewrite (resolver_search_missing_id
             (mk_resolver (PyStr "anytree") LogCallable (AnyTree amock) "1" "species")
             amock ["4"; "9"] (Some ["9"]) ["4"; "9"] ["9"] "9"
             eq_refl eq_refl Hrd (or_intror (or_introl eq_refl)) Hn).
  vm_compute. reflexivity.
Defined.

(** X21.  A [TaxonResolver] whose mode is neither ["anytree"] nor
    ["fast"] never loads a tree: [load] leaves it as it was, after handing
    a message to a callable logger, or raises [TypeError] when the logger
    cannot be called; its [search] and [validate] return [None].  The
    resolver cli.py builds with [TaxonResolver(logging)] has such a mode
    and no logger: [load] leaves it unchanged and its [search] and
    [validate] return [None] whatever the files. *)
Theorem resolver_invalid_mode_inert :
  (forall r format_ok loaded sfile ffile sep indx, valid_mode r = false ->
     load r format_ok loaded =
       match logging r with
       | NoLogger => LDone r false
       | LogCallable => LDone r true
       | LogNotCallable => LRaised TypeError
       end /\
     search r sfile ffile sep indx = RNone /\ validate r sfile ffile sep indx = VNone) /\
  valid_mode cli_resolver = false /\
  (forall format_ok loaded, load cli_resolver format_ok loaded = LDone cli_resolver false) /\
  (forall sfile ffile sep indx,
     search cli_resolver sfile ffile sep indx = RNone /\
     validate cli_resolver sfile ffile sep indx = VNone).
Proof.
  assert (H : forall r format_ok loaded sfile ffile sep indx, valid_mode r = false ->
     load r format_ok loaded =
       match logging r with
       | NoLogger => LDone r false
       | LogCallable => LDone r true
       | LogNotCallable => LRaised TypeError
       end /\
     search r sfile ffile sep indx = RNone /\ validate r sfile ffile sep indx = VNone).
  { intros r b l sf ff sp ix Hv. unfold load. rewrite Hv, andb_false_r.
    unfold valid_mode in Hv. apply orb_false_iff in Hv as [H1 H2].
    unfold search, validate. rewrite H1, H2. auto. }
  split; [exact H|]. split; [reflexivity|]. split.
  - intros b l. exact (proj1 (H cli_resolver b l [] None None 0%Z eq_refl)).
  - intros sf ff sp ix. exact (proj2 (H cli_resolver true NoTree sf ff sp ix eq_refl)).
Qed.

End AnytreeExtras.
